(** * Cart synchronisation of the storefront theme (assets/add-to-cart.js)

    A shallow embedding of the three classes that make up the cart
    subsystem: [CartAPI] (the remote gateway), [CartStore] (the reactive
    store object) and [CartManager] (the synchroniser and its UI handlers).

    Conventions of the embedding:
    - JavaScript values are an inductive type; numbers are IEEE-754
      doubles (Rocq's primitive floats); an object is the list of its
      properties in insertion order, a name being looked up at its first
      entry.
    - An [async] function is a resumption.  It stops where it awaits the
      network (the answer to a [fetch], the body of a response) and is
      resumed in whatever state the page is in by then.  Awaiting another
      [async] function of this file is plain sequencing.
    - The page is a record of the mutable objects the code touches: the
      store object (the object literal of [CartStore], registered as
      [Alpine.store('cart')]), the [data-processing] attribute of every
      element, a log of the [fetch] calls and a count of the drawer
      openings scheduled with [setTimeout].
    - Console output is left out. *)

From Stdlib Require Import ZArith String Ascii List Floats Lia Bool.
From stdpp Require Import base tactics option list gmap strings pretty.

Import ListNotations.
Set Warnings "-register-all".
Local Open Scope string_scope.
Local Open Scope Z_scope.

(** ** JavaScript values *)

Inductive JsVal : Type :=
| VUndefined
| VNull
| VBool (b : bool)
| VNum (x : float)
| VStr (s : string)
| VArr (elems : list JsVal)
| VObj (props : list (string * JsVal)).

(** Every value thrown on the paths modelled here is an [Error] object
    ([new Error(..)], or the platform's [TypeError] / [SyntaxError]); the
    code only ever reads its [message]. *)
Record JsError : Type := mkError { err_name : string; err_message : string }.

Inductive Completion (A : Type) : Type :=
| Normal (a : A)
| Abrupt (e : JsError).
Arguments Normal {A} a.
Arguments Abrupt {A} e.

(** Built-ins of the host that are used by the code but not reproduced
    here: the engine's number/string conversions, and the optional
    [window.Shopify.formatMoney]. *)
Record Platform : Type := mkPlatform {
  NumberToString : float -> string;
  StringToNumber : string -> float;
  parseInt10 : string -> float;
  Shopify_formatMoney : option (JsVal -> JsVal)
}.

Definition TypeError (msg : string) : JsError := mkError "TypeError" msg.
Definition SyntaxError (msg : string) : JsError := mkError "SyntaxError" msg.

Definition typeof_nullish (v : JsVal) : option string :=
  match v with
  | VUndefined => Some "undefined"
  | VNull => Some "null"
  | _ => None
  end.

Definition is_nullish (v : JsVal) : bool :=
  match typeof_nullish v with Some _ => true | None => false end.

Fixpoint assoc (name : string) (props : list (string * JsVal)) : JsVal :=
  match props with
  | [] => VUndefined
  | (k, v) :: rest => if String.eqb k name then v else assoc name rest
  end.

(** The data property [name] of a value that is neither [null] nor
    [undefined]: primitives and arrays have none of the properties read
    by this code. *)
Definition prop_of (v : JsVal) (name : string) : JsVal :=
  match v with
  | VObj props => assoc name props
  | _ => VUndefined
  end.

(** [v.name]: reading a property of [null] or [undefined] throws. *)
Definition get_prop (v : JsVal) (name : string) : Completion JsVal :=
  match typeof_nullish v with
  | Some t =>
      Abrupt (TypeError ("Cannot read properties of " ++ t
                           ++ " (reading '" ++ name ++ "')"))
  | None => Normal (prop_of v name)
  end.

Definition cbind {A B} (c : Completion A) (f : A -> Completion B)
  : Completion B :=
  match c with
  | Normal a => f a
  | Abrupt e => Abrupt e
  end.

Notation "'let?' x ':=' c 'in' k" := (cbind c (fun x => k))
  (at level 10, x name, c at level 100, k at level 200).

(** ToBoolean *)
Definition truthy (v : JsVal) : bool :=
  match v with
  | VUndefined | VNull => false
  | VBool b => b
  | VNum x => negb (PrimFloat.is_zero x || PrimFloat.is_nan x)
  | VStr s => negb (String.eqb s "")
  | VArr _ | VObj _ => true
  end.

(** [a || b] *)
Definition js_or (a b : JsVal) : JsVal := if truthy a then a else b.

Definition Array_isArray (v : JsVal) : bool :=
  match v with VArr _ => true | _ => false end.

Definition join_with (sep : string) (l : list string) : string :=
  match l with
  | [] => ""
  | x :: rest => fold_left (fun acc y => acc ++ sep ++ y) rest x
  end.

(** ToString *)
Fixpoint ToString (P : Platform) (v : JsVal) : string :=
  match v with
  | VUndefined => "undefined"
  | VNull => "null"
  | VBool true => "true"
  | VBool false => "false"
  | VNum x => NumberToString P x
  | VStr s => s
  | VArr elems =>
      join_with ","
        (map (fun e => if is_nullish e then "" else ToString P e) elems)
  | VObj _ => "[object Object]"
  end.

(** ToNumber *)
Definition ToNumber (P : Platform) (v : JsVal) : float :=
  match v with
  | VUndefined => PrimFloat.nan
  | VNull => 0%float
  | VBool true => 1%float
  | VBool false => 0%float
  | VNum x => x
  | VStr s => StringToNumber P s
  | VArr _ | VObj _ => StringToNumber P (ToString P v)
  end.

(** [a + b] *)
Definition js_add (P : Platform) (a b : JsVal) : JsVal :=
  let stringy v :=
    match v with VStr _ | VArr _ | VObj _ => true | _ => false end in
  if stringy a || stringy b
  then VStr (ToString P a ++ ToString P b)
  else VNum (ToNumber P a + ToNumber P b)%float.

(** [a - b] *)
Definition js_sub (P : Platform) (a b : JsVal) : JsVal :=
  VNum (ToNumber P a - ToNumber P b)%float.

(** [a / b] *)
Definition js_div (P : Platform) (a b : JsVal) : float :=
  (ToNumber P a / ToNumber P b)%float.

(** [a > n] for a number [n]: the right operand is never a string, so the
    comparison is numeric. *)
Definition js_gt_num (P : Platform) (a : JsVal) (n : float) : bool :=
  PrimFloat.ltb n (ToNumber P a).

(** [new Error(message)] *)
Definition new_Error (P : Platform) (message : JsVal) : JsError :=
  mkError "Error"
    (match message with VUndefined => "" | _ => ToString P message end).

(** ** Number.prototype.toFixed *)

(** The decimal digits of [n / 10^f], for a natural number [n]. *)
Definition fixed_digits (n : Z) (f : nat) : string :=
  let m := pretty n in
  let k := String.length m in
  let m := if (k <=? f)%nat
           then String.concat "" (repeat "0" (S f - k)) ++ m
           else m in
  let k := String.length m in
  if (f =? 0)%nat then m
  else substring 0 (k - f) m ++ "." ++ substring (k - f) f m.

(** The integer [n] for which [n / 10^f - m * 2^e] is closest to zero,
    the larger one when there are two. *)
Definition nearest_scaled (m : positive) (e : Z) (f : nat) : Z :=
  let scaled := Z.pos m * 10 ^ Z.of_nat f in
  if 0 <=? e then scaled * 2 ^ e
  else (2 * scaled + 2 ^ (- e)) / 2 ^ (1 - e).

Definition at_least_1e21 (m : positive) (e : Z) : bool :=
  if 0 <=? e then 10 ^ 21 <=? Z.pos m * 2 ^ e
  else 10 ^ 21 * 2 ^ (- e) <=? Z.pos m.

Definition toFixed (P : Platform) (x : float) (f : nat) : string :=
  match Prim2SF x with
  | S754_nan => "NaN"
  | S754_infinity false => "Infinity"
  | S754_infinity true => "-Infinity"
  | S754_zero _ => fixed_digits 0 f
  | S754_finite s m e =>
      if at_least_1e21 m e then NumberToString P x
      else (if s then "-" else "") ++ fixed_digits (nearest_scaled m e f) f
  end.

(** ** CartStore: the reactive store object *)

Module CartStore.

Record t : Type := mk {
  items : list JsVal;
  item_count : JsVal;
  total_price : JsVal;
  formatted_total : JsVal;
  loading : bool;
  error : option string
}.

(** The object literal of the constructor. *)
Definition initial : t :=
  {| items := []; item_count := VNum 0; total_price := VNum 0;
     formatted_total := VStr "$0.00"; loading := false; error := None |}.

Definition formatMoney (P : Platform) (cents : JsVal) : JsVal :=
  match Shopify_formatMoney P with
  | Some platform_format => platform_format cents
  | None => VStr ("$" ++ toFixed P (js_div P cents (VNum 100)) 2)
  end.

Definition setLoading (isLoading : bool) (this : t) : t :=
  {| items := items this; item_count := item_count this;
     total_price := total_price this;
     formatted_total := formatted_total this;
     loading := isLoading; error := error this |}.

Definition setError (errorMessage : option string) (this : t) : t :=
  {| items := items this; item_count := item_count this;
     total_price := total_price this;
     formatted_total := formatted_total this;
     loading := loading this; error := errorMessage |}.

(** Plain property assignments [this.field = value]. *)
Definition set_items (v : list JsVal) (this : t) : t :=
  {| items := v; item_count := item_count this;
     total_price := total_price this;
     formatted_total := formatted_total this;
     loading := loading this; error := error this |}.

Definition set_item_count (v : JsVal) (this : t) : t :=
  {| items := items this; item_count := v;
     total_price := total_price this;
     formatted_total := formatted_total this;
     loading := loading this; error := error this |}.

Definition set_total_price (v : JsVal) (this : t) : t :=
  {| items := items this; item_count := item_count this;
     total_price := v;
     formatted_total := formatted_total this;
     loading := loading this; error := error this |}.

Definition set_formatted_total (v : JsVal) (this : t) : t :=
  {| items := items this; item_count := item_count this;
     total_price := total_price this;
     formatted_total := v;
     loading := loading this; error := error this |}.

(** [Array.isArray(v) ? v : []] *)
Definition array_or_empty (v : JsVal) : list JsVal :=
  match v with VArr l => l | _ => [] end.

Definition updateCart (P : Platform) (this : t) (cartData : JsVal)
  : Completion t :=
  (* the logging prologue reads cartData.items first *)
  let? _ := get_prop cartData "items" in
  let? cart_items := get_prop cartData "items" in
  let items' := array_or_empty cart_items in
  let this := set_items items' this in
  let? count := get_prop cartData "item_count" in
  let this := set_item_count (js_or count (VNum 0)) this in
  let? price := get_prop cartData "total_price" in
  let this := set_total_price (js_or price (VNum 0)) this in
  let? price' := get_prop cartData "total_price" in
  let this := set_formatted_total (formatMoney P (js_or price' (VNum 0))) this in
  Normal (setError None this).

(** [this.items.find(item => item.key === key) || null]; the callback
    throws on an element that is [null] or [undefined]. *)
Fixpoint find_key (key : string) (l : list JsVal) : Completion JsVal :=
  match l with
  | [] => Normal VUndefined
  | item :: rest =>
      let? k := get_prop item "key" in
      match k with
      | VStr s => if String.eqb s key then Normal item else find_key key rest
      | _ => find_key key rest
      end
  end.

Definition getItem (this : t) (key : string) : Completion JsVal :=
  let? found := find_key key (items this) in
  Normal (js_or found VNull).

End CartStore.

(** ** The page and the network *)

Abbreviation Element := positive.

(** [typeof window.Alpine] and [window.Alpine.store('cart')]. *)
Inductive AlpineState : Type :=
| AlpineAbsent
| AlpineNoCart
| AlpineCart.

(** A call of [fetch]; [body] is the value handed to [JSON.stringify]. *)
Record Request : Type := mkRequest {
  method : string;
  url : string;
  headers : list (string * string);
  body : option JsVal
}.

(** What the server sent as a body: text that parses as JSON to [parsed],
    or text on which [JSON.parse] fails with the message [parse_error]. *)
Inductive Body : Type :=
| JsonBody (raw : string) (parsed : JsVal)
| TextBody (raw : string) (parse_error : string).

Record Response : Type := mkResponse {
  status : Z;
  rbody : Body;
  bodyUsed : bool
}.

(** [response.ok] *)
Definition ok (r : Response) : bool :=
  (200 <=? status r) && (status r <=? 299).

(** The same response object once one of its body readers has been
    called. *)
Definition disturbed (r : Response) : Response :=
  {| status := status r; rbody := rbody r; bodyUsed := true |}.

(** How a [fetch] settles: with the status and body the server sent, or
    with the error of a network failure. *)
Inductive FetchResult : Type :=
| Resolved (code : Z) (payload : Body)
| Rejected (e : JsError).

(** The mutable objects of the page: the store object registered with
    Alpine, the [data-processing] attribute of every element, and two
    logs (the [fetch] calls made, the drawer openings scheduled). *)
Record World : Type := mkWorld {
  Alpine : AlpineState;
  cart : CartStore.t;
  processing : gmap Element string;
  requests : list Request;
  drawer_timers : nat
}.

Definition set_cart (f : CartStore.t -> CartStore.t) (w : World) : World :=
  {| Alpine := Alpine w; cart := f (cart w); processing := processing w;
     requests := requests w; drawer_timers := drawer_timers w |}.

Definition set_processing (el : Element) (v : string) (w : World) : World :=
  {| Alpine := Alpine w; cart := cart w;
     processing := <[el := v]> (processing w);
     requests := requests w; drawer_timers := drawer_timers w |}.

Definition log_request (req : Request) (w : World) : World :=
  {| Alpine := Alpine w; cart := cart w; processing := processing w;
     requests := requests w ++ [req]; drawer_timers := drawer_timers w |}.

(** [setTimeout(() => this.sideCart.open(), 100)] *)
Definition schedule_drawer (w : World) : World :=
  {| Alpine := Alpine w; cart := cart w; processing := processing w;
     requests := requests w; drawer_timers := S (drawer_timers w) |}.

(** ** Asynchronous functions

    An [async] function runs until it awaits the network: the answer to a
    [fetch], or the body of a response.  There it stops, and is resumed
    later in whatever state the page is in by then. *)

Inductive Outcome (A : Type) : Type :=
| Done (w : World) (c : Completion A)
| AwaitFetch (w : World) (req : Request)
    (k : FetchResult -> World -> Outcome A)
| AwaitBody (w : World) (k : World -> Outcome A).
Arguments Done {A} w c.
Arguments AwaitFetch {A} w req k.
Arguments AwaitBody {A} w k.

Definition Task (A : Type) : Type := World -> Outcome A.

Fixpoint obind {A B} (o : Outcome A) (f : A -> Task B) : Outcome B :=
  match o with
  | Done w (Normal a) => f a w
  | Done w (Abrupt e) => Done w (Abrupt e)
  | AwaitFetch w req k => AwaitFetch w req (fun r w' => obind (k r w') f)
  | AwaitBody w k => AwaitBody w (fun w' => obind (k w') f)
  end.

(** [try { .. } catch (e) { .. }] *)
Fixpoint ocatch {A} (o : Outcome A) (h : JsError -> Task A) : Outcome A :=
  match o with
  | Done w (Normal a) => Done w (Normal a)
  | Done w (Abrupt e) => h e w
  | AwaitFetch w req k => AwaitFetch w req (fun r w' => ocatch (k r w') h)
  | AwaitBody w k => AwaitBody w (fun w' => ocatch (k w') h)
  end.

(** [try { .. } finally { .. }]: the block runs on every exit, and the
    completion of the body stands unless the block itself throws. *)
Fixpoint ofinally {A} (o : Outcome A) (fin : Task unit) : Outcome A :=
  match o with
  | Done w c => obind (fin w) (fun _ w' => Done w' c)
  | AwaitFetch w req k => AwaitFetch w req (fun r w' => ofinally (k r w') fin)
  | AwaitBody w k => AwaitBody w (fun w' => ofinally (k w') fin)
  end.

Definition ret {A} (a : A) : Task A := fun w => Done w (Normal a).
Definition throw {A} (e : JsError) : Task A := fun w => Done w (Abrupt e).
Definition bind {A B} (m : Task A) (f : A -> Task B) : Task B :=
  fun w => obind (m w) f.
Definition try_catch {A} (m : Task A) (h : JsError -> Task A) : Task A :=
  fun w => ocatch (m w) h.
Definition try_finally {A} (m : Task A) (fin : Task unit) : Task A :=
  fun w => ofinally (m w) fin.
Definition lift {A} (c : Completion A) : Task A := fun w => Done w c.
Definition modify (f : World -> World) : Task unit :=
  fun w => Done (f w) (Normal tt).
Definition gets {A} (f : World -> A) : Task A :=
  fun w => Done w (Normal (f w)).
Definition when (b : bool) (m : Task unit) : Task unit :=
  if b then m else ret tt.

Notation "'let!' x ':=' m 'in' k" := (bind m (fun x => k))
  (at level 10, x name, m at level 100, k at level 200).
Notation "m ';;!' k" := (bind m (fun _ => k))
  (at level 100, k at level 200, right associativity).

(** [await fetch(url, init)]: the request leaves at once, the function
    resumes when the network answers (or fails). *)
Definition fetch (req : Request) : Task Response :=
  fun w =>
    AwaitFetch (log_request req w) req
      (fun r w' =>
         match r with
         | Resolved code payload =>
             Done w' (Normal (mkResponse code payload false))
         | Rejected e => Done w' (Abrupt e)
         end).

Definition body_used_message : string := "body stream already read".

(** [await response.json()] *)
Definition Response_json (r : Response) : Task JsVal :=
  fun w =>
    AwaitBody w
      (fun w' =>
         Done w'
           (if bodyUsed r then Abrupt (TypeError body_used_message)
            else match rbody r with
                 | JsonBody _ v => Normal v
                 | TextBody _ msg => Abrupt (SyntaxError msg)
                 end)).

(** [await response.text()] *)
Definition Response_text (r : Response) : Task string :=
  fun w =>
    AwaitBody w
      (fun w' =>
         Done w'
           (if bodyUsed r then Abrupt (TypeError body_used_message)
            else match rbody r with
                 | JsonBody raw _ => Normal raw
                 | TextBody raw _ => Normal raw
                 end)).

(** ** CartAPI: the remote gateway *)

Module CartAPI.

Definition baseURL : string := "/cart".

Definition json_headers : list (string * string) :=
  [("Content-Type", "application/json")].

Definition POST (path : string) (payload : JsVal) : Request :=
  mkRequest "POST" (baseURL ++ path) json_headers (Some payload).

(** The [catch (error) { console.error(..); throw error; }] that wraps
    every method. *)
Definition log_and_rethrow {A} (m : Task A) : Task A :=
  try_catch m (fun error => throw error).

Definition getCart (P : Platform) : Task JsVal :=
  log_and_rethrow (
    let! response :=
      fetch (mkRequest "GET" (baseURL ++ ".js") json_headers None) in
    if negb (ok response)
    then throw (new_Error P (VStr "Failed to fetch cart"))
    else Response_json response).

Definition addItem (P : Platform) (item : JsVal) : Task JsVal :=
  log_and_rethrow (
    let! response := fetch (POST "/add.js" item) in
    if negb (ok response)
    then
      let errorMessage := VStr "Failed to add item to cart" in
      let! errorMessage :=
        try_catch (
          let! error := Response_json response in
          let! description := lift (get_prop error "description") in
          if truthy description then ret description
          else
            let! message := lift (get_prop error "message") in
            ret (js_or message errorMessage))
        (fun e =>
           (* response.json() has been called on this response *)
           let! text := Response_text (disturbed response) in
           ret (js_or (VStr text) errorMessage)) in
      throw (new_Error P errorMessage)
    else
      let! result := Response_json response in
      let! fullCart := getCart P in
      ret fullCart).

Definition addItems (P : Platform) (items : JsVal) : Task JsVal :=
  log_and_rethrow (
    let! response := fetch (POST "/add.js" (VObj [("items", items)])) in
    if negb (ok response)
    then
      let! error := Response_json response in
      let! description := lift (get_prop error "description") in
      throw (new_Error P (js_or description (VStr "Failed to add items to cart")))
    else
      let! result := Response_json response in
      let! fullCart := getCart P in
      ret fullCart).

Definition updateItem (P : Platform) (key : string) (quantity : JsVal)
  : Task JsVal :=
  log_and_rethrow (
    let! response :=
      fetch (POST "/change.js"
               (VObj [("id", VStr key); ("quantity", quantity)])) in
    if negb (ok response)
    then
      let! error := Response_json response in
      let! description := lift (get_prop error "description") in
      throw (new_Error P (js_or description (VStr "Failed to update item")))
    else Response_json response).

Definition removeItem (P : Platform) (key : string) : Task JsVal :=
  log_and_rethrow (
    let! response :=
      fetch (POST "/change.js"
               (VObj [("id", VStr key); ("quantity", VNum 0)])) in
    if negb (ok response)
    then
      let! error := Response_json response in
      let! description := lift (get_prop error "description") in
      throw (new_Error P (js_or description (VStr "Failed to remove item")))
    else Response_json response).

End CartAPI.

(** ** The elements that trigger an add *)

(** What [handleFormSubmit] reads from a product form: the entries of
    [new FormData(form)] in document order, and the value of
    [form.querySelector('input[name="id"]')] when there is such an input. *)
Record FormElement : Type := mkForm {
  form_el : Element;
  form_entries : list (string * string);
  form_id_input : option string
}.

(** What [handleQuickAdd] reads from a quick-add button: two data
    attributes, and the value of the id input of the closest form. *)
Record ButtonElement : Type := mkButton {
  button_el : Element;
  data_variantId : option string;
  data_quantity : option string;
  closest_form_id : option string
}.

(** [formData.get(name)]: the first value of that name, or [null]. *)
Fixpoint FormData_get (name : string) (entries : list (string * string)) : JsVal :=
  match entries with
  | [] => VNull
  | (k, v) :: rest => if String.eqb k name then VStr v else FormData_get name rest
  end.

Definition or_undefined (o : option string) : JsVal :=
  match o with Some s => VStr s | None => VUndefined end.

Definition or_null (o : option string) : JsVal :=
  match o with Some s => VStr s | None => VNull end.

Definition startsWith (pre s : string) : bool := String.prefix pre s.

Definition endsWith (suf s : string) : bool :=
  let n := String.length suf in
  let k := String.length s in
  (n <=? k)%nat && String.eqb (substring (k - n) n s) suf.

(** [s.replace(pat, '')] for a string pattern: the first occurrence goes. *)
Definition remove_first (pat s : string) : string :=
  match String.index 0 pat s with
  | Some i =>
      substring 0 i s
      ++ substring (i + String.length pat)
           (String.length s - (i + String.length pat)) s
  | None => s
  end.

(** [obj[name] = v] on an object built by the code. *)
Fixpoint obj_set (name : string) (v : JsVal) (props : list (string * JsVal))
  : list (string * JsVal) :=
  match props with
  | [] => [(name, v)]
  | (k, old) :: rest =>
      if String.eqb k name then (k, v) :: rest
      else (k, old) :: obj_set name v rest
  end.

(** The loop that collects the line item properties of a form. *)
Definition collect_properties (entries : list (string * string))
  : list (string * JsVal) :=
  fold_left
    (fun properties '(key, value) =>
       if startsWith "properties[" key && endsWith "]" key
       then
         let propKey := remove_first "]" (remove_first "properties[" key) in
         if truthy (VStr value)
         then obj_set propKey (VStr value) properties
         else properties
       else properties)
    entries [].

(** ** CartManager: the synchroniser *)

Module CartManager.

(** [getCartStore()]: the manager keeps no store of its own
    ([this.store] stays [null]), so the result is the Alpine store or
    [null]; [true] stands for a reference to the store object. *)
Definition getCartStore (w : World) : bool :=
  match Alpine w with AlpineCart => true | _ => false end.

(** [if (cartStore) { cartStore.method(..) }] *)
Definition on_store (cartStore : bool) (f : CartStore.t -> CartStore.t)
  : Task unit :=
  when cartStore (modify (set_cart f)).

(** [cartStore.updateCart(cart)] *)
Definition store_updateCart (P : Platform) (cartData : JsVal) : Task unit :=
  fun w =>
    match CartStore.updateCart P (cart w) cartData with
    | Normal st => Done (set_cart (fun _ => st) w) (Normal tt)
    | Abrupt e => Done w (Abrupt e)
    end.

(** The assignments made directly on [window.Alpine.store('cart')],
    which is the store object itself. *)
Definition assign_directly (P : Platform) (cartData : JsVal)
    (clear_error : bool) : Task unit :=
  let! cart_items := lift (get_prop cartData "items") in
  modify (set_cart (CartStore.set_items (CartStore.array_or_empty cart_items))) ;;!
  let! count := lift (get_prop cartData "item_count") in
  modify (set_cart (CartStore.set_item_count (js_or count (VNum 0)))) ;;!
  let! price := lift (get_prop cartData "total_price") in
  modify (set_cart (CartStore.set_total_price (js_or price (VNum 0)))) ;;!
  let! price' := lift (get_prop cartData "total_price") in
  modify (set_cart (CartStore.set_formatted_total
                      (CartStore.formatMoney P (js_or price' (VNum 0))))) ;;!
  when clear_error (modify (set_cart (CartStore.setError None))).

(** [typeof window.Alpine !== 'undefined'] *)
Definition Alpine_defined (a : AlpineState) : bool :=
  match a with AlpineAbsent => false | _ => true end.

(** [window.Alpine.store('cart')], as a condition *)
Definition Alpine_store_cart (a : AlpineState) : bool :=
  match a with AlpineCart => true | _ => false end.

Definition loadInitialCart (P : Platform) : Task unit :=
  try_catch (
    let! cartData := CartAPI.getCart P in
    let! cartStore := gets getCartStore in
    let! alpine := gets Alpine in
    if cartStore && Alpine_defined alpine
    then
      when (Alpine_store_cart alpine) (assign_directly P cartData false) ;;!
      store_updateCart P cartData
    else when cartStore (store_updateCart P cartData))
  (fun error => ret tt).

Definition addToCart (P : Platform) (itemOrItems : JsVal) (openCart : bool)
  : Task JsVal :=
  let! cartStore := gets getCartStore in
  on_store cartStore (CartStore.setLoading true) ;;!
  on_store cartStore (CartStore.setError None) ;;!
  try_finally (
    try_catch (
      let! cartData :=
        if Array_isArray itemOrItems
        then CartAPI.addItems P itemOrItems
        else CartAPI.addItem P itemOrItems in
      when cartStore (
        let! alpine := gets Alpine in
        if Alpine_defined alpine
        then
          if Alpine_store_cart alpine
          then
            assign_directly P cartData true ;;!
            store_updateCart P cartData
          else store_updateCart P cartData
        else store_updateCart P cartData) ;;!
      when openCart (modify schedule_drawer) ;;!
      ret cartData)
    (fun error =>
       on_store cartStore (CartStore.setError (Some (err_message error))) ;;!
       throw error))
  (on_store cartStore (CartStore.setLoading false)).

Definition updateQuantity (P : Platform) (key : string) (quantity : JsVal)
  : Task JsVal :=
  let! cartStore := gets getCartStore in
  on_store cartStore (CartStore.setLoading true) ;;!
  try_finally (
    try_catch (
      let! cartData := CartAPI.updateItem P key quantity in
      when cartStore (store_updateCart P cartData) ;;!
      ret cartData)
    (fun error =>
       on_store cartStore (CartStore.setError (Some (err_message error))) ;;!
       throw error))
  (on_store cartStore (CartStore.setLoading false)).

Definition removeItem (P : Platform) (key : string) : Task JsVal :=
  let! cartStore := gets getCartStore in
  on_store cartStore (CartStore.setLoading true) ;;!
  try_finally (
    try_catch (
      let! cartData := CartAPI.removeItem P key in
      let! alpine := gets Alpine in
      (if cartStore && Alpine_defined alpine
       then
         when (Alpine_store_cart alpine) (assign_directly P cartData false) ;;!
         store_updateCart P cartData
       else when cartStore (store_updateCart P cartData)) ;;!
      ret cartData)
    (fun error =>
       on_store cartStore (CartStore.setError (Some (err_message error))) ;;!
       throw error))
  (on_store cartStore (CartStore.setLoading false)).

Definition is_processing (el : Element) (w : World) : bool :=
  match processing w !! el with
  | Some flag => String.eqb flag "true"
  | None => false
  end.

Definition handleFormSubmit (P : Platform) (form : FormElement) : Task unit :=
  let! busy := gets (is_processing (form_el form)) in
  if busy then ret tt
  else
    modify (set_processing (form_el form) "true") ;;!
    let! cartStore := gets getCartStore in
    on_store cartStore (CartStore.setLoading true) ;;!
    try_finally (
      try_catch (
        let formData := form_entries form in
        let variantId := FormData_get "id" formData in
        let variantId :=
          if negb (truthy variantId)
          then or_null (form_id_input form)
          else variantId in
        if negb (truthy variantId)
        then throw (new_Error P
               (VStr "Variant ID not found. Please select a product variant."))
        else
          let quantity :=
            parseInt10 P
              (ToString P (js_or (FormData_get "quantity" formData) (VStr "1"))) in
          let properties := collect_properties formData in
          let item :=
            VObj ([("id", variantId); ("quantity", VNum quantity)]
                    ++ (if (0 <? length properties)%nat
                        then [("properties", VObj properties)]
                        else [])) in
          let! _ := addToCart P item true in
          ret tt)
      (fun error =>
         on_store cartStore (CartStore.setError (Some (err_message error)))))
    (on_store cartStore (CartStore.setLoading false) ;;!
     modify (set_processing (form_el form) "false")).

Definition handleQuickAdd (P : Platform) (button : ButtonElement) : Task unit :=
  let! busy := gets (is_processing (button_el button)) in
  if busy then ret tt
  else
    modify (set_processing (button_el button) "true") ;;!
    let! cartStore := gets getCartStore in
    on_store cartStore (CartStore.setLoading true) ;;!
    try_finally (
      try_catch (
        let variantId :=
          js_or (or_undefined (data_variantId button))
                (or_undefined (closest_form_id button)) in
        let quantity :=
          parseInt10 P
            (ToString P (js_or (or_undefined (data_quantity button)) (VStr "1"))) in
        if negb (truthy variantId)
        then throw (new_Error P (VStr "Variant ID not found"))
        else
          let! _ :=
            addToCart P
              (VObj [("id", variantId); ("quantity", VNum quantity)]) true in
          ret tt)
      (fun error =>
         on_store cartStore (CartStore.setError (Some (err_message error)))))
    (on_store cartStore (CartStore.setLoading false) ;;!
     modify (set_processing (button_el button) "false")).

(** A call of an [async] function whose promise is dropped: the caller
    goes on, and a later rejection reaches nobody. *)
Fixpoint detach {A} (o : Outcome A) : Outcome unit :=
  match o with
  | Done w _ => Done w (Normal tt)
  | AwaitFetch w req k => AwaitFetch w req (fun r w' => detach (k r w'))
  | AwaitBody w k => AwaitBody w (fun w' => detach (k w'))
  end.

(** [cartStore.getItem(key)] on the store object *)
Definition store_getItem (key : string) : Task JsVal :=
  fun w => Done w (CartStore.getItem (cart w) key).

(** The methods handed to the templates by [getMethods()]. *)
Definition incrementQuantity (P : Platform) (key : string) : Task unit :=
  let! cartStore := gets getCartStore in
  if cartStore
  then
    let! item := store_getItem key in
    if truthy item
    then
      let! quantity := lift (get_prop item "quantity") in
      fun w => detach (updateQuantity P key (js_add P quantity (VNum 1)) w)
    else ret tt
  else ret tt.

Definition decrementQuantity (P : Platform) (key : string) : Task unit :=
  let! cartStore := gets getCartStore in
  if cartStore
  then
    let! item := store_getItem key in
    if truthy item
    then
      let! quantity := lift (get_prop item "quantity") in
      if js_gt_num P quantity 1
      then
        let! quantity := lift (get_prop item "quantity") in
        fun w => detach (updateQuantity P key (js_sub P quantity (VNum 1)) w)
      else ret tt
    else ret tt
  else ret tt.

Definition methods_removeItem (P : Platform) (key : string) : Task unit :=
  fun w => detach (removeItem P key w).

End CartManager.

(** ** One mutation on its own

    The run of a single asynchronous function when nothing else touches
    the page: each [fetch] is answered by the next element of [replies],
    bodies arrive, and the function is resumed in the state it left. *)
Fixpoint run_alone {A} (o : Outcome A) (replies : list FetchResult) : Outcome A :=
  match o with
  | Done w c => Done w c
  | AwaitFetch w req k =>
      match replies with
      | r :: rest => run_alone (k r w) rest
      | [] => AwaitFetch w req k
      end
  | AwaitBody w k => run_alone (k w) replies
  end.

(** ** The page as an event loop

    Handlers and resumptions run one at a time, in any order the user and
    the network produce.  A suspended function is kept with the element
    whose handler started it, if any. *)

Inductive Suspended : Type :=
| OnFetch (req : Request) (k : FetchResult -> World -> Outcome unit)
| OnBody (k : World -> Outcome unit).

Record PendingTask : Type := mkPending {
  owner : option Element;
  susp : Suspended
}.

Record Page : Type := mkPage {
  world : World;
  pending : list PendingTask
}.

(** [Submit form]: the submit listener has recognised a product form and
    calls [handleFormSubmit]; [QuickAddClick]: the click listener calls
    [handleQuickAdd]; the three quantity events are the methods of
    [getMethods()] called from the templates; [FetchSettled i r] and
    [BodyArrived i] resume the [i]-th suspended function. *)
Inductive Event : Type :=
| Submit (form : FormElement)
| QuickAddClick (button : ButtonElement)
| IncrementClick (key : string)
| DecrementClick (key : string)
| RemoveClick (key : string)
| LoadCart
| FetchSettled (i : nat) (r : FetchResult)
| BodyArrived (i : nat).

(** The page after a handler or a resumption has run up to its next
    suspension or to its end. *)
Definition settle (o : option Element) (out : Outcome unit)
    (others : list PendingTask) : Page :=
  match out with
  | Done w _ => mkPage w others
  | AwaitFetch w req k => mkPage w (others ++ [mkPending o (OnFetch req k)])
  | AwaitBody w k => mkPage w (others ++ [mkPending o (OnBody k)])
  end.

Definition step (P : Platform) (pg : Page) (ev : Event) : Page :=
  match ev with
  | Submit form =>
      settle (Some (form_el form))
        (CartManager.handleFormSubmit P form (world pg)) (pending pg)
  | QuickAddClick button =>
      settle (Some (button_el button))
        (CartManager.handleQuickAdd P button (world pg)) (pending pg)
  | IncrementClick key =>
      settle None (CartManager.incrementQuantity P key (world pg)) (pending pg)
  | DecrementClick key =>
      settle None (CartManager.decrementQuantity P key (world pg)) (pending pg)
  | RemoveClick key =>
      settle None (CartManager.methods_removeItem P key (world pg)) (pending pg)
  | LoadCart =>
      settle None (CartManager.loadInitialCart P (world pg)) (pending pg)
  | FetchSettled i r =>
      match pending pg !! i with
      | Some (mkPending o (OnFetch _ k)) =>
          settle o (k r (world pg)) (delete i (pending pg))
      | _ => pg
      end
  | BodyArrived i =>
      match pending pg !! i with
      | Some (mkPending o (OnBody k)) =>
          settle o (k (world pg)) (delete i (pending pg))
      | _ => pg
      end
  end.

Definition run (P : Platform) (pg : Page) (evs : list Event) : Page :=
  fold_left (step P) evs pg.

(** The elements that have a mutation in flight. *)
Definition in_flight (pg : Page) : list Element :=
  omap owner (pending pg).

(** A page as it is once loaded: nothing pending, no element flagged. *)
Definition fresh (w : World) : Prop :=
  forall el, CartManager.is_processing el w = false.

(** ** The submit listener

    What the capture-phase listener of [setupEventListeners] reads from
    the target of a [submit] event. *)
Record SubmitTarget : Type := mkTarget {
  tagName : string;
  target_form : FormElement;
  attr_action : option string;
  attr_name : option string;
  has_data_cart_form : bool
}.

(** [s.includes(pat)] *)
Definition includes (pat s : string) : bool :=
  match String.index 0 pat s with Some _ => true | None => false end.

(** [form.getAttribute(name) || ''] *)
Definition attribute_or_empty (a : option string) : string :=
  match a with Some s => s | None => "" end.

(** The test of the listener for a product form or a cart add form;
    [hasIdInput] is the element found by
    [form.querySelector('input[name="id"]')]. *)
Definition is_product_form (t : SubmitTarget) : bool :=
  let formAction := attribute_or_empty (attr_action t) in
  let formName := attribute_or_empty (attr_name t) in
  let hasCartFormAttr := has_data_cart_form t in
  let hasIdInput :=
    match form_id_input (target_form t) with Some _ => true | None => false end in
  hasCartFormAttr || includes "/cart/add" formAction
  || String.eqb formName "product" || hasIdInput.

(** The listener on a page: the page after it has run, and whether it
    called [e.preventDefault()].  The promise of [handleFormSubmit] is
    dropped. *)
Definition submit_listener (P : Platform) (pg : Page) (t : SubmitTarget)
  : Page * bool :=
  let form := target_form t in
  if String.eqb (tagName t) "FORM"
     && negb (CartManager.is_processing (form_el form) (world pg))
  then
    if is_product_form t
    then
      (settle (Some (form_el form))
         (CartManager.handleFormSubmit P form (world pg)) (pending pg),
       true)
    else (pg, false)
  else (pg, false).

(** ** SideCart: the drawer

    The drawer is one element, matched by [[data-a11y-dialog="side-cart"]]
    when it is in the document.  The dialog library is a parameter: its
    constructor and its [show] and [hide] may change the attributes of
    that element in any way, and may throw after having done so; the
    dialog object keeps the element as its [container].  Logging, and
    the timer of [showDialogManually] that only logs, are left out. *)

Record Container : Type := mkContainer {
  aria_hidden : option string;
  style_display : option string
}.

Record DialogLibrary : Type := mkLibrary {
  construct : Container -> Container * option JsError;
  show_is_function : bool;
  library_show : Container -> Container * option JsError;
  library_hide : Container -> Container * option JsError
}.

Inductive Timer : Type :=
| RetryInitialize
| RetryOpen.

Module SideCart.

Record t : Type := mk {
  dialog : bool;
  element : Container;
  in_document : bool;
  timers : list Timer
}.

Definition set_element (c : Container) (this : t) : t :=
  {| dialog := dialog this; element := c; in_document := in_document this;
     timers := timers this |}.




Definition showDialogManually (this : t) : t :=
  if in_document this
  then set_element (mkContainer (Some "false") (Some "block")) this
  else this.

Definition showDialog (L : DialogLibrary) (this : t) : t :=
  if dialog this && show_is_function L
  then
    match library_show L (element this) with
    | (c, None) =>
        let this := set_element c this in
        if in_document this
        then
          let ariaHidden := aria_hidden (element this) in
          if negb (bool_decide (ariaHidden = Some "false"))
          then showDialogManually this
          else this
        else this
    | (c, Some error) => showDialogManually (set_element c this)
    end
  else showDialogManually this.



Definition hideDialogManually (this : t) : t :=
  if in_document this
  then set_element (mkContainer (Some "true") (style_display (element this))) this
  else this.

Definition close (L : DialogLibrary) (this : t) : t :=
  if dialog this
  then
    match library_hide L (element this) with
    | (c, None) => set_element c this
    | (c, Some error) => hideDialogManually (set_element c this)
    end
  else hideDialogManually this.

(** [isOpen()], as a condition. *)
Definition isOpen (this : t) : bool :=
  dialog this
  && negb (match aria_hidden (element this) with Some _ => true | None => false end).

End SideCart.

(** ** Registration of the store

    [registerStore()]: when the Alpine store is there the cart is loaded
    at once; otherwise a listener for [alpine:init] and a timer of
    100 ms are set, and [true] is returned for them. *)
Definition store_available (w : World) : bool :=
  CartManager.Alpine_defined (Alpine w) && CartManager.Alpine_store_cart (Alpine w).

Definition registerStore (P : Platform) (w : World) : Outcome unit * bool :=
  if store_available w
  then (CartManager.loadInitialCart P w, false)
  else (Done w (Normal tt), true).

(** The listener for [alpine:init]. *)
Definition on_alpine_init (P : Platform) : Task unit :=
  CartManager.loadInitialCart P.

(** The callback of the timer. *)
Definition after_delay (P : Platform) : Task unit :=
  fun w =>
    if store_available w then CartManager.loadInitialCart P w
    else Done w (Normal tt).

(** ** The fallback format, as the specification words it

    Minor units divided by 100, two decimals, a dollar sign in front,
    written with integer arithmetic only. *)

Definition float_of_Z (c : Z) : float := PrimFloat.of_uint63 (Uint63.of_Z c).

Definition two_digits (n : Z) : string :=
  if n <? 10 then "0" ++ pretty n else pretty n.

Definition dollars_and_cents (cents : Z) : string :=
  "$" ++ pretty (cents / 100) ++ "." ++ two_digits (cents mod 100).

(** Does the fallback of [formatMoney] print [dollars_and_cents c] for
    the integer amount [c]? *)
Definition fallback_agrees (c : Z) : bool :=
  match Prim2SF (float_of_Z c / 100)%float with
  | S754_zero _ => String.eqb ("$" ++ fixed_digits 0 2) (dollars_and_cents c)
  | S754_finite s m e =>
      negb (at_least_1e21 m e)
      && String.eqb
           ("$" ++ (if s then "-" else "") ++ fixed_digits (nearest_scaled m e 2) 2)
           (dollars_and_cents c)
  | _ => false
  end.

Fixpoint all_from (fuel : nat) (c : Z) (p : Z -> bool) : bool :=
  match fuel with
  | O => true
  | S n => p c && all_from n (c + 1) p
  end.

(** ** Vocabulary of the properties *)

(** The requests of the wire contract. *)
Definition add_request (item : JsVal) : Request :=
  mkRequest "POST" "/cart/add.js" [("Content-Type", "application/json")] (Some item).

Definition snapshot_request : Request :=
  mkRequest "GET" "/cart.js" [("Content-Type", "application/json")] None.

Definition change_request (key : string) (quantity : JsVal) : Request :=
  mkRequest "POST" "/cart/change.js" [("Content-Type", "application/json")]
    (Some (VObj [("id", VStr key); ("quantity", quantity)])).

(** The store after a mutation that started in [w] has failed with [e]:
    the snapshot fields are those of [w]; with a store at hand [error] is
    the message and [loading] is [false], without one nothing changed. *)
Definition only_ui_changed (w w' : World) (e : JsError) : Prop :=
  CartStore.items (cart w') = CartStore.items (cart w)
  /\ CartStore.item_count (cart w') = CartStore.item_count (cart w)
  /\ CartStore.total_price (cart w') = CartStore.total_price (cart w)
  /\ CartStore.formatted_total (cart w') = CartStore.formatted_total (cart w)
  /\ (CartManager.getCartStore w = true ->
      CartStore.error (cart w') = Some (err_message e)
      /\ CartStore.loading (cart w') = false)
  /\ (CartManager.getCartStore w = false -> cart w' = cart w).

(** Two runs that made the same requests and ended the same way, except
    that where the first fails with "Failed to remove item" the second
    may fail with "Failed to update item". *)
Definition same_but_fallback (a b : Outcome JsVal) : Prop :=
  match a, b with
  | Done wa ca, Done wb cb =>
      wa = wb
      /\ (ca = cb
          \/ (ca = Abrupt (mkError "Error" "Failed to remove item")
              /\ cb = Abrupt (mkError "Error" "Failed to update item")))
  | AwaitFetch wa reqa _, AwaitFetch wb reqb _ => wa = wb /\ reqa = reqb
  | _, _ => False
  end.

(** What a function started by [o] does to the [data-processing] flags:
    none before it ends, and at its end the flag of its own trigger, if
    it has one, is "false". *)
Definition release (o : option Element) (flags : gmap Element string)
  : gmap Element string :=
  match o with
  | Some el => <[el := "false"]> flags
  | None => flags
  end.

(** [owned o w0 out]: resumed in [w0], and in whatever state it is
    resumed later, the function leaves the flags alone until it ends and
    then releases the flag of [o]. *)
Inductive owned {A : Type} (o : option Element) : World -> Outcome A -> Prop :=
| owned_done w0 w c :
    processing w = release o (processing w0) ->
    owned o w0 (Done w c)
| owned_fetch w0 w req k :
    processing w = processing w0 ->
    (forall r w1, owned o w1 (k r w1)) ->
    owned o w0 (AwaitFetch w req k)
| owned_body w0 w k :
    processing w = processing w0 ->
    (forall w1, owned o w1 (k w1)) ->
    owned o w0 (AwaitBody w k).

(** A function that never touches the flags. *)
Definition keeps {A : Type} (m : Task A) : Prop :=
  forall w, owned None w (m w).

(** A synchronous block that cannot throw, with its effect on the flags. *)
Definition quiet (o : option Element) (fin : Task unit) : Prop :=
  forall w, exists w',
    fin w = Done w' (Normal tt) /\ processing w' = release o (processing w).

Definition task_owned (p : PendingTask) : Prop :=
  match susp p with
  | OnFetch _ k => forall r w, owned (owner p) w (k r w)
  | OnBody k => forall w, owned (owner p) w (k w)
  end.

(** The invariant of the event loop. *)
Record page_ok (pg : Page) : Prop := mkPageOk {
  ok_tasks : Forall task_owned (pending pg);
  ok_nodup : NoDup (in_flight pg);
  ok_flags : forall el,
      CartManager.is_processing el (world pg) = true <-> el ∈ in_flight pg
}.

(** ** Vocabulary of the further properties *)

(** The store once [updateCart] has applied [snapshot], with [loading]
    as given. *)
Definition store_of_snapshot (P : Platform) (snapshot : JsVal) (is_loading : bool)
  : CartStore.t :=
  {| CartStore.items := CartStore.array_or_empty (prop_of snapshot "items");
     CartStore.item_count := js_or (prop_of snapshot "item_count") (VNum 0);
     CartStore.total_price := js_or (prop_of snapshot "total_price") (VNum 0);
     CartStore.formatted_total :=
       CartStore.formatMoney P (js_or (prop_of snapshot "total_price") (VNum 0));
     CartStore.loading := is_loading;
     CartStore.error := None |}.

(** The store with its two UI fields replaced. *)
Definition with_ui (is_loading : bool) (message : option string) (st : CartStore.t)
  : CartStore.t :=
  CartStore.setLoading is_loading (CartStore.setError message st).

Definition success (code : Z) : Prop := 200 <= code <= 299.




(** The requests of the wire contract, whatever their payload. *)
Definition cart_endpoint (req : Request) : Prop :=
  req = snapshot_request
  \/ (exists payload, req = add_request payload)
  \/ (exists key quantity, req = change_request key quantity).

(** The total on display is the stored total, formatted. *)
Definition total_in_step (P : Platform) (st : CartStore.t) : Prop :=
  CartStore.formatted_total st = CartStore.formatMoney P (CartStore.total_price st).

(** From [w0] to [w] the page has only called the cart endpoints, and a
    total that was in step still is. *)
Definition advances (P : Platform) (w0 w : World) : Prop :=
  (exists sent,
      requests w = (requests w0 ++ sent)%list /\ Forall cart_endpoint sent)
  /\ (total_in_step P (cart w0) -> total_in_step P (cart w)).

(** [stays R w0 out]: resumed in [w0], and in whatever state it is
    resumed later, the function moves the page along [R] each time it
    runs. *)
Inductive stays {A : Type} (R : World -> World -> Prop)
  : World -> Outcome A -> Prop :=
| stays_done w0 w c :
    R w0 w -> stays R w0 (Done w c)
| stays_fetch w0 w req k :
    R w0 w -> (forall r w1, stays R w1 (k r w1)) ->
    stays R w0 (AwaitFetch w req k)
| stays_body w0 w k :
    R w0 w -> (forall w1, stays R w1 (k w1)) ->
    stays R w0 (AwaitBody w k).

Definition steady {A : Type} (R : World -> World -> Prop) (m : Task A) : Prop :=
  forall w, stays R w (m w).

Definition task_steady (R : World -> World -> Prop) (p : PendingTask) : Prop :=
  match susp p with
  | OnFetch _ k => forall r w, stays R w (k r w)
  | OnBody k => forall w, stays R w (k w)
  end.

(** [ends F out]: whatever the network answers and whatever state the
    function is resumed in, it ends, and [F] holds of its last state and
    its completion. *)
Inductive ends {A : Type} (F : World -> Completion A -> Prop)
  : Outcome A -> Prop :=
| ends_done w c : F w c -> ends F (Done w c)
| ends_fetch w req k :
    (forall r w1, ends F (k r w1)) -> ends F (AwaitFetch w req k)
| ends_body w k :
    (forall w1, ends F (k w1)) -> ends F (AwaitBody w k).


(** The error that [addItems], [updateItem] and [removeItem] throw on an
    answer with an error status; [fallback] is the message of the
    operation. *)
Definition change_error (P : Platform) (fallback : string) (payload : Body)
  : JsError :=
  match payload with
  | JsonBody _ error =>
      match get_prop error "description" with
      | Normal description => new_Error P (js_or description (VStr fallback))
      | Abrupt e => e
      end
  | TextBody _ parse_error => SyntaxError parse_error
  end.

(** ** Sample data *)

(** A host without [window.Shopify]; its conversions are never reached
    by the samples below. *)
Definition bare_platform : Platform :=
  mkPlatform (fun _ => "") (fun _ => PrimFloat.nan) (fun _ => PrimFloat.nan) None.

Definition blank_world : World :=
  mkWorld AlpineCart CartStore.initial ∅ [] 0.

(** The store still shows the error of an earlier failure. *)
Definition sold_out_world : World :=
  mkWorld AlpineCart (CartStore.setError (Some "Sold out") CartStore.initial) ∅ [] 0.

(** One line, of quantity 1. *)
Definition one_left : World :=
  mkWorld AlpineCart
    (CartStore.mk [VObj [("key", VStr "abc"); ("quantity", VNum 1)]]
       (VNum 1) (VNum 999) (VStr "$9.99") false None)
    ∅ [] 0.

Definition dq : string := String (ascii_of_nat 34) EmptyString.

(** The body [{"description":"Sold out"}] of a 422 answer. *)
Definition sold_out_reply : FetchResult :=
  Resolved 422
    (JsonBody ("{" ++ dq ++ "description" ++ dq ++ ":" ++ dq ++ "Sold out" ++ dq ++ "}")
       (VObj [("description", VStr "Sold out")])).

(** A 500 answer with an HTML page for a body. *)
Definition server_error_reply : FetchResult :=
  Resolved 500
    (TextBody "<html><body>Internal Server Error</body></html>"
       "Unexpected token '<', <html><bod... is not valid JSON").

(** A 422 answer whose body is the empty JSON object. *)
Definition bare_error_reply : FetchResult :=
  Resolved 422 (JsonBody "{}" (VObj [])).

Definition line_abc (quantity : float) : JsVal :=
  VObj [("key", VStr "abc"); ("quantity", VNum quantity); ("price", VNum 999)].

Definition snapshot_abc : JsVal :=
  VObj [("items", VArr [line_abc 3]); ("item_count", VNum 3);
        ("total_price", VNum 2997)].

Definition item_V1 : JsVal := VObj [("id", VStr "V1"); ("quantity", VNum 2)].

Definition form_7 : FormElement :=
  mkForm 7 [("id", "V1"); ("quantity", "2")] (Some "V1").

Definition form_7_target : SubmitTarget :=
  mkTarget "FORM" form_7 (Some "/cart/add") None false.

(** * Properties *)

(** ** Money formatting *)

Lemma all_from_spec (p : Z -> bool) :
  forall fuel c, all_from fuel c p = true ->
  forall x, c <= x < c + Z.of_nat fuel -> p x = true.
Proof.
  induction fuel as [|n IH]; intros c Hall x Hx.
  - simpl in Hx. lia.
  - simpl in Hall. apply andb_true_iff in Hall as [Hc Hrest].
    destruct (Z.eq_dec x c) as [->|Hne]; [exact Hc|].
    apply (IH (c + 1) Hrest). lia.
Qed.

Lemma fallback_agrees_below_500_dollars :
  all_from (Z.to_nat 50000) 0 fallback_agrees = true.
Proof. vm_compute. reflexivity. Qed.

Lemma fallback_agrees_sound (P : Platform) (c : Z) :
  Shopify_formatMoney P = None ->
  fallback_agrees c = true ->
  CartStore.formatMoney P (VNum (float_of_Z c)) = VStr (dollars_and_cents c).
Proof.
  intros HP Hc. unfold CartStore.formatMoney. rewrite HP. f_equal.
  unfold fallback_agrees in Hc. unfold toFixed, js_div. simpl ToNumber.
  destruct (Prim2SF (float_of_Z c / 100)%float) as [z| | |s m e]; try discriminate.
  - apply String.eqb_eq in Hc. exact Hc.
  - apply andb_true_iff in Hc as [Hsmall Hc].
    apply negb_true_iff in Hsmall. rewrite Hsmall.
    apply String.eqb_eq in Hc. exact Hc.
Qed.

(** C5. Without a platform formatter, [formatMoney(cents)] is a dollar
    sign followed by [(cents / 100).toFixed(2)]; it prints 1099 as
    "$10.99" and 0 as "$0.00", and for every whole amount below 50000
    minor units it prints exactly the quotient by 100 with the two-digit
    remainder after the point. *)
Theorem formatMoney_fallback (P : Platform) :
  Shopify_formatMoney P = None ->
  (forall cents,
      CartStore.formatMoney P cents
      = VStr ("$" ++ toFixed P (js_div P cents (VNum 100)) 2))
  /\ CartStore.formatMoney P (VNum 1099) = VStr "$10.99"
  /\ CartStore.formatMoney P (VNum 0) = VStr "$0.00"
  /\ (forall c, 0 <= c < 50000 ->
        CartStore.formatMoney P (VNum (float_of_Z c))
        = VStr (dollars_and_cents c)).
Proof.
  intros HP. repeat split.
  - intros cents. unfold CartStore.formatMoney. now rewrite HP.
  - unfold CartStore.formatMoney. rewrite HP. vm_compute. reflexivity.
  - unfold CartStore.formatMoney. rewrite HP. vm_compute. reflexivity.
  - intros c Hc. apply fallback_agrees_sound; [exact HP|].
    apply (all_from_spec _ _ _ fallback_agrees_below_500_dollars).
    rewrite Z2Nat.id; lia.
Qed.

Lemma formatMoney_fallback_witness :
  CartStore.formatMoney bare_platform (VNum (float_of_Z 2997))
  = VStr (dollars_and_cents 2997).
Proof.
  destruct (formatMoney_fallback bare_platform eq_refl) as (_ & _ & _ & H).
  apply (H 2997). lia.
Defined.

(** ** The store *)

Lemma get_prop_defined (v : JsVal) (name : string) :
  is_nullish v = false -> get_prop v name = Normal (prop_of v name).
Proof.
  unfold is_nullish, get_prop. now destruct (typeof_nullish v).
Qed.

Lemma get_prop_nullish (v : JsVal) (name : string) :
  is_nullish v = true -> exists e, get_prop v name = Abrupt e.
Proof.
  unfold is_nullish, get_prop. destruct (typeof_nullish v); [eauto | discriminate].
Qed.

Lemma updateCart_defined (P : Platform) (this : CartStore.t) (cartData : JsVal) :
  is_nullish cartData = false ->
  CartStore.updateCart P this cartData
  = Normal
      {| CartStore.items := CartStore.array_or_empty (prop_of cartData "items");
         CartStore.item_count := js_or (prop_of cartData "item_count") (VNum 0);
         CartStore.total_price := js_or (prop_of cartData "total_price") (VNum 0);
         CartStore.formatted_total :=
           CartStore.formatMoney P (js_or (prop_of cartData "total_price") (VNum 0));
         CartStore.loading := CartStore.loading this;
         CartStore.error := None |}.
Proof.
  intros Hd. unfold CartStore.updateCart.
  rewrite !(get_prop_defined _ _ Hd). reflexivity.
Qed.

Lemma updateCart_nullish (P : Platform) (this : CartStore.t) (cartData : JsVal) :
  is_nullish cartData = true ->
  exists e, CartStore.updateCart P this cartData = Abrupt e.
Proof.
  intros Hn. unfold CartStore.updateCart.
  destruct (get_prop_nullish cartData "items" Hn) as [e ->]. now exists e.
Qed.

(** C9, as stated, fails on the payload [null]: [updateCart] throws while
    reading [cartData.items], and the store keeps the error it had. *)
Lemma updateCart_null_payload :
  CartManager.store_updateCart bare_platform VNull sold_out_world
  = Done sold_out_world
      (Abrupt (TypeError "Cannot read properties of null (reading 'items')"))
  /\ CartStore.error (cart sold_out_world) = Some "Sold out".
Proof. split; reflexivity. Qed.

(** C9, amended. For every payload other than [null] and [undefined],
    [updateCart] returns normally and leaves a well-formed store: [items]
    is the payload's array, and the empty array when the payload's
    [items] is not an array; [item_count] and [total_price] are the
    payload's, and 0 when those are absent or falsy; [formatted_total] is
    [formatMoney] of the stored [total_price]; [error] is [null]. *)
Theorem updateCart_well_formed (P : Platform) (this : CartStore.t) (cartData : JsVal) :
  is_nullish cartData = false ->
  exists st,
    CartStore.updateCart P this cartData = Normal st
    /\ CartStore.items st = CartStore.array_or_empty (prop_of cartData "items")
    /\ (Array_isArray (prop_of cartData "items") = false -> CartStore.items st = [])
    /\ CartStore.item_count st = js_or (prop_of cartData "item_count") (VNum 0)
    /\ (truthy (prop_of cartData "item_count") = false ->
        CartStore.item_count st = VNum 0)
    /\ CartStore.total_price st = js_or (prop_of cartData "total_price") (VNum 0)
    /\ (truthy (prop_of cartData "total_price") = false ->
        CartStore.total_price st = VNum 0)
    /\ CartStore.formatted_total st = CartStore.formatMoney P (CartStore.total_price st)
    /\ CartStore.error st = None
    /\ CartStore.loading st = CartStore.loading this.
Proof.
  intros Hd. eexists. split; [apply (updateCart_defined P this cartData Hd)|].
  cbn [CartStore.items CartStore.item_count CartStore.total_price
       CartStore.formatted_total CartStore.error CartStore.loading].
  repeat split.
  - intros Harr. now destruct (prop_of cartData "items").
  - intros Hf. unfold js_or. now rewrite Hf.
  - intros Hf. unfold js_or. now rewrite Hf.
Qed.

Lemma updateCart_well_formed_witness :
  exists st,
    CartStore.updateCart bare_platform CartStore.initial
      (VObj [("items", VStr "none"); ("total_price", VNum 2997)]) = Normal st
    /\ CartStore.items st = []
    /\ CartStore.item_count st = VNum 0
    /\ CartStore.formatted_total st = VStr "$29.97".
Proof.
  destruct (updateCart_well_formed bare_platform CartStore.initial
              (VObj [("items", VStr "none"); ("total_price", VNum 2997)]) eq_refl)
    as (st & Hst & _ & Hitems & _ & Hcount & _ & _ & Hfmt & _).
  exists st. split; [exact Hst|]. split; [now apply Hitems|].
  split; [now apply Hcount|].
  rewrite Hfmt. vm_compute in Hst. injection Hst as <-. vm_compute. reflexivity.
Defined.

(** ** Quantity buttons *)

Lemma find_key_unknown (key : string) (l : list JsVal) :
  (forall item, item ∈ l -> prop_of item "key" <> VStr key) ->
  CartStore.find_key key l = Normal VUndefined
  \/ exists e, CartStore.find_key key l = Abrupt e.
Proof.
  induction l as [|item rest IH]; intros Hno; [now left|].
  cbn [CartStore.find_key].
  destruct (is_nullish item) eqn:Hn.
  - right. destruct (get_prop_nullish item "key" Hn) as [e ->]. now exists e.
  - rewrite (get_prop_defined _ _ Hn). cbn [cbind].
    assert (Hrest : forall it, it ∈ rest -> prop_of it "key" <> VStr key)
      by (intros it Hit; apply Hno; now right).
    specialize (Hno item (list_elem_of_here _ _)).
    destruct (prop_of item "key") as [| | | |s| |]; try (now apply IH).
    destruct (String.eqb s key) eqn:Heq; [|now apply IH].
    apply String.eqb_eq in Heq. congruence.
Qed.

Lemma find_key_unknown_total (key : string) (l : list JsVal) :
  (forall item, item ∈ l -> prop_of item "key" <> VStr key) ->
  Forall (fun item => is_nullish item = false) l ->
  CartStore.find_key key l = Normal VUndefined.
Proof.
  induction l as [|item rest IH]; intros Hno Hall; [reflexivity|].
  apply Forall_cons in Hall as [Hn Hall].
  cbn [CartStore.find_key]. rewrite (get_prop_defined _ _ Hn). cbn [cbind].
  assert (Hrest : forall it, it ∈ rest -> prop_of it "key" <> VStr key)
    by (intros it Hit; apply Hno; now right).
  specialize (Hno item (list_elem_of_here _ _)).
  destruct (prop_of item "key") as [| | | |s| |]; try (now apply IH).
  destruct (String.eqb s key) eqn:Heq; [|now apply IH].
  apply String.eqb_eq in Heq. congruence.
Qed.

(** An item returned by [getItem] for a key is an object. *)
Lemma find_key_found (key : string) (l : list JsVal) (item : JsVal) :
  CartStore.find_key key l = Normal item ->
  item = VUndefined \/ exists props, item = VObj props.
Proof.
  induction l as [|x rest IH]; cbn [CartStore.find_key]; intros H.
  - left. congruence.
  - destruct (get_prop x "key") as [k|e] eqn:Hk; cbn [cbind] in H; [|discriminate].
    assert (Hobj : forall s, k = VStr s -> exists props, x = VObj props).
    { intros s ->. unfold get_prop in Hk.
      destruct (typeof_nullish x); [discriminate|].
      destruct x; cbn in Hk; try discriminate; eauto. }
    destruct k as [| | | |s| |]; try (now apply IH).
    destruct (String.eqb s key); [|now apply IH].
    right. injection H as <-. now apply (Hobj s).
Qed.

(** C4. When the line item of that key has quantity 1,
    [decrementQuantity(key)] ends at once in the state it started in: no
    [fetch] is made, and neither the snapshot nor the loading and error
    fields change.  An update is only ever sent for a quantity that
    compares greater than 1, and it carries that quantity minus 1. *)
Theorem decrementQuantity_floor (P : Platform) (w : World) (key : string) :
  (forall item,
      CartStore.getItem (cart w) key = Normal item ->
      prop_of item "quantity" = VNum 1 ->
      CartManager.decrementQuantity P key w = Done w (Normal tt))
  /\ (forall w' req k,
        CartManager.decrementQuantity P key w = AwaitFetch w' req k ->
        exists item,
          CartStore.getItem (cart w) key = Normal item
          /\ js_gt_num P (prop_of item "quantity") 1 = true
          /\ req = CartAPI.POST "/change.js"
                     (VObj [("id", VStr key);
                            ("quantity", js_sub P (prop_of item "quantity") (VNum 1))])).
Proof.
  split.
  - intros item Hitem Hq.
    unfold CartManager.decrementQuantity, bind, gets, CartManager.store_getItem.
    cbn [obind]. destruct (CartManager.getCartStore w); [|reflexivity].
    rewrite Hitem. cbn [obind].
    assert (Hn : is_nullish item = false) by (destruct item; easy).
    destruct (truthy item); [|reflexivity].
    unfold lift. rewrite (get_prop_defined _ _ Hn). cbn [obind].
    rewrite Hq. reflexivity.
  - intros w' req k.
    unfold CartManager.decrementQuantity, bind, gets, CartManager.store_getItem.
    cbn [obind]. destruct (CartManager.getCartStore w) eqn:Hstore; [|discriminate].
    destruct (CartStore.getItem (cart w) key) as [item|e] eqn:Hitem;
      cbn [obind]; [|discriminate].
    destruct (truthy item) eqn:Ht; [|discriminate].
    assert (Hn : is_nullish item = false) by (destruct item; easy).
    unfold lift. rewrite !(get_prop_defined _ _ Hn). cbn [obind].
    destruct (js_gt_num P (prop_of item "quantity") 1) eqn:Hgt; [|discriminate].
    cbn [obind].
    unfold CartManager.updateQuantity, bind, gets. cbn [obind].
    rewrite Hstore. cbn. intros H. injection H as _ <- _.
    exists item. auto.
Qed.

Lemma decrementQuantity_floor_witness :
  CartManager.decrementQuantity bare_platform "abc" one_left
  = Done one_left (Normal tt).
Proof.
  apply (proj1 (decrementQuantity_floor bare_platform one_left "abc")
           (VObj [("key", VStr "abc"); ("quantity", VNum 1)])); reflexivity.
Defined.

(** C10. With a key that no line item of the store carries,
    [incrementQuantity] and [decrementQuantity] end at once in the state
    they started in: no [fetch], no change of any store field.  They
    return normally whenever no element of [items] is [null] or
    [undefined]. *)
Theorem unknown_key_is_noop (P : Platform) (w : World) (key : string) :
  (forall item, item ∈ CartStore.items (cart w) -> prop_of item "key" <> VStr key) ->
  (exists c, CartManager.incrementQuantity P key w = Done w c)
  /\ (exists c, CartManager.decrementQuantity P key w = Done w c)
  /\ (Forall (fun item => is_nullish item = false) (CartStore.items (cart w)) ->
      CartManager.incrementQuantity P key w = Done w (Normal tt)
      /\ CartManager.decrementQuantity P key w = Done w (Normal tt)).
Proof.
  intros Hno.
  unfold CartManager.incrementQuantity, CartManager.decrementQuantity,
    bind, gets, CartManager.store_getItem, CartStore.getItem.
  cbn [obind]. destruct (CartManager.getCartStore w).
  2: { repeat split; eauto. }
  split; [|split].
  - destruct (find_key_unknown key _ Hno) as [-> | [e ->]]; cbn; eauto.
  - destruct (find_key_unknown key _ Hno) as [-> | [e ->]]; cbn; eauto.
  - intros Hall. rewrite (find_key_unknown_total key _ Hno Hall). cbn. auto.
Qed.

Lemma unknown_key_is_noop_witness :
  CartManager.incrementQuantity bare_platform "zzz" one_left
  = Done one_left (Normal tt)
  /\ CartManager.decrementQuantity bare_platform "zzz" one_left
     = Done one_left (Normal tt).
Proof.
  apply (unknown_key_is_noop bare_platform one_left "zzz").
  - intros item Hin. apply list_elem_of_singleton in Hin. subst item. discriminate.
  - repeat constructor.
Defined.

(** ** Proof automation for runs of a single function *)

Ltac unfold_tasks :=
  unfold CartManager.updateQuantity, CartManager.removeItem, CartManager.addToCart,
    CartAPI.updateItem, CartAPI.removeItem, CartAPI.addItem, CartAPI.addItems,
    CartAPI.getCart, CartAPI.log_and_rethrow, CartAPI.POST,
    CartManager.on_store, CartManager.assign_directly, CartManager.store_updateCart,
    Response_json, Response_text, fetch,
    try_finally, try_catch, bind, gets, modify, lift, when, ret, throw in *.

Ltac task_cbn :=
  cbn [obind ocatch ofinally run_alone ok status rbody bodyUsed negb disturbed
       cart set_cart log_request Alpine requests processing drawer_timers
       CartManager.getCartStore CartManager.Alpine_defined
       CartManager.Alpine_store_cart andb orb] in *.

Ltac split_on x :=
  let E := fresh "E" in destruct x eqn:E; try rewrite E in *.

Ltac task_case :=
  match goal with
  | H : Done _ _ = Done _ _ |- _ => injection H as ? ?; subst
  | H : AwaitFetch _ _ _ = Done _ _ |- _ => discriminate H
  | H : AwaitBody _ _ = Done _ _ |- _ => discriminate H
  | H : Normal _ = Abrupt _ |- _ => discriminate H
  | H : Abrupt _ = Normal _ |- _ => discriminate H
  | H : true = false |- _ => discriminate H
  | H : false = true |- _ => discriminate H
  | H : Normal _ = Normal _ |- _ => injection H as ?; subst
  | H : Abrupt _ = Abrupt _ |- _ => injection H as ?; subst
  | H : context [match ?x with Resolved _ _ => _ | Rejected _ => _ end] |- _ =>
      destruct x
  | H : context [match ?x with [] => _ | _ :: _ => _ end] |- _ => destruct x
  | H : context [match ?x with JsonBody _ _ => _ | TextBody _ _ => _ end] |- _ =>
      destruct x
  | H : context [match ?x with Normal _ => _ | Abrupt _ => _ end] |- _ =>
      split_on x
  | H : context [match ?x with AlpineAbsent => _ | _ => _ end] |- _ =>
      split_on x
  | H : context [if ?b then _ else _] |- _ => split_on b
  | |- context [match ?x with Resolved _ _ => _ | Rejected _ => _ end] =>
      destruct x
  | |- context [match ?x with [] => _ | _ :: _ => _ end] => destruct x
  | |- context [match ?x with JsonBody _ _ => _ | TextBody _ _ => _ end] =>
      destruct x
  | |- context [match ?x with Normal _ => _ | Abrupt _ => _ end] =>
      split_on x
  | |- context [match ?x with AlpineAbsent => _ | _ => _ end] =>
      split_on x
  | |- context [if ?b then _ else _] => split_on b
  end.

Ltac run_cases := repeat (task_cbn; task_case); task_cbn; try congruence.

(** ** Failed mutations *)

Lemma only_ui_changed_intro (w w' : World) (e : JsError) :
  cart w' = (if CartManager.getCartStore w
             then CartStore.setLoading false
                    (CartStore.setError (Some (err_message e)) (cart w))
             else cart w) ->
  only_ui_changed w w' e.
Proof.
  unfold only_ui_changed. intros ->.
  destruct (CartManager.getCartStore w); cbn; repeat split; congruence.
Qed.

Lemma updateQuantity_failure (P : Platform) (key : string) (q : JsVal)
    (w wg : World) (replies : list FetchResult) (e : JsError) :
  run_alone (CartAPI.updateItem P key q w) replies = Done wg (Abrupt e) ->
  exists w',
    run_alone (CartManager.updateQuantity P key q w) replies = Done w' (Abrupt e)
    /\ requests w' = requests wg
    /\ only_ui_changed w w' e.
Proof.
  intros H. unfold_tasks. run_cases.
  all: eexists; split; [reflexivity|]; split; [reflexivity|].
  all: apply only_ui_changed_intro;
    match goal with H : CartManager.getCartStore _ = _ |- _ => rewrite H end;
    reflexivity.
Qed.

Lemma removeItem_failure (P : Platform) (key : string)
    (w wg : World) (replies : list FetchResult) (e : JsError) :
  run_alone (CartAPI.removeItem P key w) replies = Done wg (Abrupt e) ->
  exists w',
    run_alone (CartManager.removeItem P key w) replies = Done w' (Abrupt e)
    /\ requests w' = requests wg
    /\ only_ui_changed w w' e.
Proof.
  intros H. unfold_tasks. run_cases.
  all: eexists; split; [reflexivity|]; split; [reflexivity|].
  all: apply only_ui_changed_intro;
    match goal with H : CartManager.getCartStore _ = _ |- _ => rewrite H end;
    reflexivity.
Qed.

Lemma addToCart_failure (P : Platform) (itemOrItems : JsVal) (openCart : bool)
    (w wg : World) (replies : list FetchResult) (e : JsError) :
  run_alone
    ((if Array_isArray itemOrItems
      then CartAPI.addItems P itemOrItems
      else CartAPI.addItem P itemOrItems) w) replies
  = Done wg (Abrupt e) ->
  exists w',
    run_alone (CartManager.addToCart P itemOrItems openCart w) replies
    = Done w' (Abrupt e)
    /\ requests w' = requests wg
    /\ only_ui_changed w w' e.
Proof.
  intros H. unfold_tasks. run_cases.
  all: eexists; split; [reflexivity|]; split; [reflexivity|].
  all: apply only_ui_changed_intro;
    match goal with H : CartManager.getCartStore _ = _ |- _ => rewrite H end;
    reflexivity.
Qed.

(** C3. Whenever the gateway call of a mutation fails (add one, add many,
    update quantity, remove), the mutation fails with the same error and
    leaves [items], [item_count], [total_price] (and [formatted_total])
    exactly as they were; [error] becomes the message of the failure and
    [loading] is back to [false]. *)
Theorem failed_mutation_keeps_snapshot (P : Platform) (w wg : World)
    (replies : list FetchResult) (e : JsError) :
  (forall itemOrItems openCart,
      run_alone
        ((if Array_isArray itemOrItems
          then CartAPI.addItems P itemOrItems
          else CartAPI.addItem P itemOrItems) w) replies
      = Done wg (Abrupt e) ->
      exists w',
        run_alone (CartManager.addToCart P itemOrItems openCart w) replies
        = Done w' (Abrupt e)
        /\ only_ui_changed w w' e)
  /\ (forall key quantity,
        run_alone (CartAPI.updateItem P key quantity w) replies
        = Done wg (Abrupt e) ->
        exists w',
          run_alone (CartManager.updateQuantity P key quantity w) replies
          = Done w' (Abrupt e)
          /\ only_ui_changed w w' e)
  /\ (forall key,
        run_alone (CartAPI.removeItem P key w) replies = Done wg (Abrupt e) ->
        exists w',
          run_alone (CartManager.removeItem P key w) replies = Done w' (Abrupt e)
          /\ only_ui_changed w w' e).
Proof.
  split; [|split].
  - intros itemOrItems openCart H.
    destruct (addToCart_failure P itemOrItems openCart w wg replies e H)
      as (w' & Hrun & _ & Hui). eauto.
  - intros key quantity H.
    destruct (updateQuantity_failure P key quantity w wg replies e H)
      as (w' & Hrun & _ & Hui). eauto.
  - intros key H.
    destruct (removeItem_failure P key w wg replies e H)
      as (w' & Hrun & _ & Hui). eauto.
Qed.

Lemma failed_mutation_keeps_snapshot_witness :
  exists w',
    run_alone (CartManager.updateQuantity bare_platform "abc" (VNum 2) one_left)
      [sold_out_reply]
    = Done w' (Abrupt (mkError "Error" "Sold out"))
    /\ only_ui_changed one_left w' (mkError "Error" "Sold out").
Proof.
  eapply (proj1 (proj2 (failed_mutation_keeps_snapshot bare_platform one_left _
                          [sold_out_reply] (mkError "Error" "Sold out")))).
  reflexivity.
Defined.

(** ** Adding one item *)

Lemma ok_success (code : Z) (payload : Body) :
  200 <= code <= 299 -> ok (mkResponse code payload false) = true.
Proof.
  intros H. unfold ok. cbn [status].
  apply andb_true_intro. split; apply Z.leb_le; lia.
Qed.

(** C2. When the server accepts a single-item add (the POST and the
    follow-up GET both answer with a success status and a JSON body),
    [addItem] makes exactly the POST to /cart/add.js and then the GET to
    /cart.js, and returns what the GET sent, whatever the POST sent; and
    [addToCart] leaves the store holding the fields of that snapshot. *)
Theorem addItem_posts_then_gets (P : Platform) (item : JsVal) (w : World)
    (post_code get_code : Z) (post_raw get_raw : string)
    (line_item snapshot : JsVal) :
  200 <= post_code <= 299 ->
  200 <= get_code <= 299 ->
  (exists wg,
      run_alone (CartAPI.addItem P item w)
        [Resolved post_code (JsonBody post_raw line_item);
         Resolved get_code (JsonBody get_raw snapshot)]
      = Done wg (Normal snapshot)
      /\ requests wg = (requests w ++ [add_request item; snapshot_request])%list
      /\ cart wg = cart w)
  /\ (Array_isArray item = false ->
      CartManager.getCartStore w = true ->
      is_nullish snapshot = false ->
      forall openCart,
      exists w',
        run_alone (CartManager.addToCart P item openCart w)
          [Resolved post_code (JsonBody post_raw line_item);
           Resolved get_code (JsonBody get_raw snapshot)]
        = Done w' (Normal snapshot)
        /\ requests w' = (requests w ++ [add_request item; snapshot_request])%list
        /\ cart w'
           = {| CartStore.items :=
                  CartStore.array_or_empty (prop_of snapshot "items");
                CartStore.item_count :=
                  js_or (prop_of snapshot "item_count") (VNum 0);
                CartStore.total_price :=
                  js_or (prop_of snapshot "total_price") (VNum 0);
                CartStore.formatted_total :=
                  CartStore.formatMoney P
                    (js_or (prop_of snapshot "total_price") (VNum 0));
                CartStore.loading := false;
                CartStore.error := None |}).
Proof.
  intros Hpost Hget.
  pose proof (ok_success post_code (JsonBody post_raw line_item) Hpost) as Hok1.
  pose proof (ok_success get_code (JsonBody get_raw snapshot) Hget) as Hok2.
  split.
  - unfold_tasks. cbn [obind ocatch ofinally run_alone].
    rewrite Hok1. cbn [negb obind ocatch ofinally run_alone rbody bodyUsed].
    rewrite Hok2. cbn [negb obind ocatch ofinally run_alone rbody bodyUsed].
    eexists. split; [reflexivity|]. split; [|reflexivity].
    cbn [requests log_request]. now rewrite <- app_assoc.
  - intros Hone Hstore Hdef openCart.
    unfold CartManager.addToCart. rewrite Hone.
    unfold CartManager.store_updateCart, CartManager.assign_directly.
    unfold_tasks. cbn [obind ocatch ofinally run_alone].
    rewrite Hstore. cbn [obind ocatch ofinally run_alone].
    rewrite Hok1. cbn [negb obind ocatch ofinally run_alone rbody bodyUsed].
    rewrite Hok2. cbn [negb obind ocatch ofinally run_alone rbody bodyUsed].
    unfold CartManager.getCartStore in Hstore.
    destruct (Alpine w) eqn:HA; try discriminate.
    cbn [Alpine set_cart log_request CartManager.Alpine_defined
         CartManager.Alpine_store_cart obind ocatch ofinally run_alone].
    rewrite HA.
    cbn [Alpine set_cart log_request CartManager.Alpine_defined
         CartManager.Alpine_store_cart obind ocatch ofinally run_alone].
    rewrite !(get_prop_defined _ _ Hdef).
    cbn [obind ocatch ofinally run_alone cart set_cart].
    rewrite (updateCart_defined _ _ _ Hdef).
    cbn [obind ocatch ofinally run_alone cart set_cart].
    destruct openCart; cbn [obind ocatch ofinally run_alone cart set_cart];
      (eexists; split; [reflexivity|]; split;
       [cbn [requests log_request set_cart schedule_drawer];
        now rewrite <- app_assoc | reflexivity]).
Qed.

Lemma addItem_posts_then_gets_witness :
  exists w',
    run_alone (CartManager.addToCart bare_platform item_V1 true blank_world)
      [Resolved 200 (JsonBody "{}" (VObj [])); Resolved 200 (JsonBody "" snapshot_abc)]
    = Done w' (Normal snapshot_abc)
    /\ requests w' = [add_request item_V1; snapshot_request]
    /\ CartStore.items (cart w') = [line_abc 3]
    /\ CartStore.formatted_total (cart w') = VStr "$29.97".
Proof.
  destruct (proj2 (addItem_posts_then_gets bare_platform item_V1 blank_world
                     200 200 "{}" "" (VObj []) snapshot_abc
                     ltac:(lia) ltac:(lia))
              eq_refl eq_refl eq_refl true) as (w' & Hrun & Hreq & Hcart).
  exists w'. split; [exact Hrun|]. split; [exact Hreq|].
  rewrite Hcart. split; reflexivity.
Defined.

(** ** Remove and update with quantity 0 *)

(** C6, as stated, fails: on a 422 answer whose JSON body has no
    description, [removeItem] and [updateItem] with quantity 0 throw
    errors with different messages. *)
Lemma removeItem_is_not_updateItem_0 :
  run_alone (CartAPI.removeItem bare_platform "abc" blank_world) [bare_error_reply]
  = Done (log_request (change_request "abc" (VNum 0)) blank_world)
      (Abrupt (mkError "Error" "Failed to remove item"))
  /\ run_alone (CartAPI.updateItem bare_platform "abc" (VNum 0) blank_world)
       [bare_error_reply]
     = Done (log_request (change_request "abc" (VNum 0)) blank_world)
         (Abrupt (mkError "Error" "Failed to update item"))
  /\ run_alone (CartAPI.removeItem bare_platform "abc" blank_world) [bare_error_reply]
     <> run_alone (CartAPI.updateItem bare_platform "abc" (VNum 0) blank_world)
          [bare_error_reply].
Proof.
  split; [reflexivity|]. split; [reflexivity|].
  intros H. discriminate H.
Qed.

(** C6, amended. For every key, [removeItem(key)] and [updateItem(key, 0)]
    send the same request, a POST of [{id: key, quantity: 0}] to
    /cart/change.js; they succeed on the same answers with the same
    result, and fail on the same answers with the same error, except
    that on an error answer without a description the first throws
    "Failed to remove item" and the second "Failed to update item". *)
Theorem removeItem_matches_updateItem_0 (P : Platform) (key : string) (w : World) :
  (exists k1 k2,
      CartAPI.removeItem P key w
      = AwaitFetch (log_request (change_request key (VNum 0)) w)
          (change_request key (VNum 0)) k1
      /\ CartAPI.updateItem P key (VNum 0) w
         = AwaitFetch (log_request (change_request key (VNum 0)) w)
             (change_request key (VNum 0)) k2)
  /\ forall replies,
      same_but_fallback
        (run_alone (CartAPI.removeItem P key w) replies)
        (run_alone (CartAPI.updateItem P key (VNum 0) w) replies).
Proof.
  split.
  - unfold_tasks. cbn [obind ocatch]. eauto.
  - intros replies. unfold same_but_fallback. unfold_tasks. run_cases.
    all: try (split; [reflexivity|]; left; reflexivity).
    all: try (split; reflexivity).
    all: split; [reflexivity|].
    all: unfold js_or in *; destruct (truthy _); [left; reflexivity|right].
    all: split; reflexivity.
Qed.

(** ** Error bodies that are not JSON *)

(** C7 at its failing input. [updateItem] answered by a 500 whose body is
    an HTML page throws the [SyntaxError] of the JSON parser: its message
    is neither the text of the body nor "Failed to update item".
    [addItem] on the same answer reaches its text fallback, but reads a
    body that [response.json()] has already consumed, and throws the
    [TypeError] of that read. *)
Theorem updateItem_leaks_parser_error :
  run_alone (CartAPI.updateItem bare_platform "abc" (VNum 2) blank_world)
    [server_error_reply]
  = Done (log_request (change_request "abc" (VNum 2)) blank_world)
      (Abrupt (SyntaxError "Unexpected token '<', <html><bod... is not valid JSON"))
  /\ run_alone (CartAPI.addItem bare_platform item_V1 blank_world)
       [server_error_reply]
     = Done (log_request (add_request item_V1) blank_world)
         (Abrupt (TypeError "body stream already read")).
Proof. split; reflexivity. Qed.

(** On an error answer with a JSON description every operation but
    [getCart] surfaces that description. *)
Lemma description_is_surfaced (P : Platform) (w : World) (code : Z)
    (raw msg : string) (rest : list (string * JsVal)) (key : string) (q item : JsVal) :
  ok (mkResponse code (JsonBody raw (VObj (("description", VStr msg) :: rest))) false)
  = false ->
  msg <> "" ->
  let reply := [Resolved code (JsonBody raw (VObj (("description", VStr msg) :: rest)))] in
  (exists w', run_alone (CartAPI.updateItem P key q w) reply
              = Done w' (Abrupt (mkError "Error" msg)))
  /\ (exists w', run_alone (CartAPI.removeItem P key w) reply
                 = Done w' (Abrupt (mkError "Error" msg)))
  /\ (exists w', run_alone (CartAPI.addItem P item w) reply
                 = Done w' (Abrupt (mkError "Error" msg)))
  /\ (exists w', run_alone (CartAPI.addItems P item w) reply
                 = Done w' (Abrupt (mkError "Error" msg))).
Proof.
  intros Hok Hmsg reply. subst reply.
  assert (Ht : truthy (VStr msg) = true).
  { cbn. destruct (String.eqb_spec msg ""); [contradiction|reflexivity]. }
  unfold_tasks. cbn [obind ocatch run_alone]. rewrite Hok.
  cbn [negb obind ocatch run_alone rbody bodyUsed get_prop typeof_nullish
       prop_of assoc String.eqb Ascii.eqb Bool.eqb].
  unfold js_or. rewrite Ht. cbn [obind ocatch run_alone].
  unfold new_Error. cbn [ToString].
  repeat split; eexists; reflexivity.
Qed.

(** ** The start of a mutation *)

(** C8 at its failing input. [updateQuantity] and [removeItem], started
    while the store shows the error of an earlier failure, reach their
    [fetch] with [loading] set and that error still in place. *)
Theorem update_and_remove_keep_prior_error :
  (exists k,
      CartManager.updateQuantity bare_platform "abc" (VNum 2) sold_out_world
      = AwaitFetch
          (log_request (change_request "abc" (VNum 2))
             (set_cart (CartStore.setLoading true) sold_out_world))
          (change_request "abc" (VNum 2)) k)
  /\ (exists k,
        CartManager.removeItem bare_platform "abc" sold_out_world
        = AwaitFetch
            (log_request (change_request "abc" (VNum 0))
               (set_cart (CartStore.setLoading true) sold_out_world))
            (change_request "abc" (VNum 0)) k)
  /\ CartStore.error (cart (set_cart (CartStore.setLoading true) sold_out_world))
     = Some "Sold out".
Proof.
  split; [|split]; [eexists; reflexivity | eexists; reflexivity | reflexivity].
Qed.

(** [addToCart] does clear the error before its [fetch]. *)
Lemma addToCart_clears_error (P : Platform) (itemOrItems : JsVal)
    (openCart : bool) (w : World) :
  CartManager.getCartStore w = true ->
  exists w1 req k,
    CartManager.addToCart P itemOrItems openCart w = AwaitFetch w1 req k
    /\ CartStore.loading (cart w1) = true
    /\ CartStore.error (cart w1) = None.
Proof.
  intros Hstore. unfold_tasks. cbn [obind ocatch ofinally]. rewrite Hstore.
  cbn [obind ocatch ofinally].
  destruct (Array_isArray itemOrItems); cbn [obind ocatch ofinally];
    do 3 eexists; (split; [reflexivity|]); split; reflexivity.
Qed.

(** ** One mutation in flight per trigger *)

Create HintDb keeps.

Lemma owned_rebase {A} (o : option Element) (w0 w0' : World) (out : Outcome A) :
  processing w0 = processing w0' -> owned o w0 out -> owned o w0' out.
Proof.
  intros Heq H. destruct H; constructor; congruence || auto.
Qed.

Lemma owned_obind {A B} (w0 : World) (out : Outcome A) (f : A -> Task B) :
  owned None w0 out -> (forall a, keeps (f a)) -> owned None w0 (obind out f).
Proof.
  intros H Hf. induction H as [w0 w c Hw | w0 w req k Hw _ IH | w0 w k Hw _ IH].
  - destruct c as [a|e]; cbn [obind].
    + apply (owned_rebase None w w0); [exact Hw | apply Hf].
    + now constructor.
  - cbn [obind]. constructor; [exact Hw | intros r w1; apply IH].
  - cbn [obind]. constructor; [exact Hw | intros w1; apply IH].
Qed.

Lemma owned_ocatch {A} (w0 : World) (out : Outcome A) (h : JsError -> Task A) :
  owned None w0 out -> (forall e, keeps (h e)) -> owned None w0 (ocatch out h).
Proof.
  intros H Hh. induction H as [w0 w c Hw | w0 w req k Hw _ IH | w0 w k Hw _ IH].
  - destruct c as [a|e]; cbn [ocatch].
    + now constructor.
    + apply (owned_rebase None w w0); [exact Hw | apply Hh].
  - cbn [ocatch]. constructor; [exact Hw | intros r w1; apply IH].
  - cbn [ocatch]. constructor; [exact Hw | intros w1; apply IH].
Qed.

Lemma owned_ofinally {A} (o : option Element) (w0 : World) (out : Outcome A)
    (fin : Task unit) :
  owned None w0 out -> quiet o fin -> owned o w0 (ofinally out fin).
Proof.
  intros H Hfin. induction H as [w0 w c Hw | w0 w req k Hw _ IH | w0 w k Hw _ IH].
  - cbn [ofinally]. destruct (Hfin w) as (w' & -> & Hw'). cbn [obind].
    constructor. cbn [release] in Hw. congruence.
  - cbn [ofinally]. constructor; [exact Hw | intros r w1; apply IH].
  - cbn [ofinally]. constructor; [exact Hw | intros w1; apply IH].
Qed.

Lemma owned_detach {A} (w0 : World) (out : Outcome A) :
  owned None w0 out -> owned None w0 (CartManager.detach out).
Proof.
  intros H. induction H as [w0 w c Hw | w0 w req k Hw _ IH | w0 w k Hw _ IH];
    cbn [CartManager.detach]; constructor; auto.
Qed.

Lemma keeps_ret {A} (a : A) : keeps (ret a).
Proof. intros w. now constructor. Qed.

Lemma keeps_throw {A} (e : JsError) : keeps (@throw A e).
Proof. intros w. now constructor. Qed.

Lemma keeps_lift {A} (c : Completion A) : keeps (lift c).
Proof. intros w. now constructor. Qed.

Lemma keeps_gets {A} (f : World -> A) : keeps (gets f).
Proof. intros w. now constructor. Qed.

Lemma keeps_set_cart (f : CartStore.t -> CartStore.t) : keeps (modify (set_cart f)).
Proof. intros w. now constructor. Qed.

Lemma keeps_schedule_drawer : keeps (modify schedule_drawer).
Proof. intros w. now constructor. Qed.

Lemma keeps_bind {A B} (m : Task A) (f : A -> Task B) :
  keeps m -> (forall a, keeps (f a)) -> keeps (bind m f).
Proof. intros Hm Hf w. apply owned_obind; [apply Hm | exact Hf]. Qed.

Lemma keeps_try_catch {A} (m : Task A) (h : JsError -> Task A) :
  keeps m -> (forall e, keeps (h e)) -> keeps (try_catch m h).
Proof. intros Hm Hh w. apply owned_ocatch; [apply Hm | exact Hh]. Qed.

Lemma keeps_try_finally {A} (m : Task A) (fin : Task unit) :
  keeps m -> quiet None fin -> keeps (try_finally m fin).
Proof. intros Hm Hfin w. apply owned_ofinally; [apply Hm | exact Hfin]. Qed.

Lemma keeps_when (b : bool) (m : Task unit) : keeps m -> keeps (when b m).
Proof. intros Hm. destruct b; [exact Hm | apply keeps_ret]. Qed.

Lemma keeps_on_store (b : bool) (f : CartStore.t -> CartStore.t) :
  keeps (CartManager.on_store b f).
Proof. apply keeps_when, keeps_set_cart. Qed.

Lemma quiet_on_store (b : bool) (f : CartStore.t -> CartStore.t) :
  quiet None (CartManager.on_store b f).
Proof. intros w. destruct b; eexists; split; reflexivity. Qed.

Lemma keeps_fetch (req : Request) : keeps (fetch req).
Proof.
  intros w. constructor; [reflexivity|].
  intros [code payload|e] w1; now constructor.
Qed.

Lemma keeps_Response_json (r : Response) : keeps (Response_json r).
Proof. intros w. constructor; [reflexivity|]. intros w1. now constructor. Qed.

Lemma keeps_Response_text (r : Response) : keeps (Response_text r).
Proof. intros w. constructor; [reflexivity|]. intros w1. now constructor. Qed.

Lemma keeps_store_updateCart (P : Platform) (cartData : JsVal) :
  keeps (CartManager.store_updateCart P cartData).
Proof.
  intros w. unfold CartManager.store_updateCart.
  destruct (CartStore.updateCart P (cart w) cartData); now constructor.
Qed.

Lemma keeps_detached {A} (m : Task A) :
  keeps m -> keeps (fun w => CartManager.detach (m w)).
Proof. intros Hm w. apply owned_detach, Hm. Qed.

#[local] Hint Resolve keeps_ret keeps_throw keeps_lift keeps_gets keeps_set_cart
  keeps_schedule_drawer keeps_when keeps_on_store keeps_fetch
  keeps_Response_json keeps_Response_text keeps_store_updateCart
  quiet_on_store : keeps.

(** Goes through a function built from the blocks above. *)
Ltac keeps_tac :=
  repeat first
    [ progress auto with keeps
    | progress intros
    | apply keeps_bind
    | apply keeps_try_catch
    | apply keeps_try_finally
    | apply keeps_detached
    | apply keeps_when
    | match goal with
      | |- keeps (if ?b then _ else _) => destruct b
      | |- keeps (match ?x with _ => _ end) => destruct x
      end ].

Lemma keeps_getCart (P : Platform) : keeps (CartAPI.getCart P).
Proof. unfold CartAPI.getCart, CartAPI.log_and_rethrow. keeps_tac. Qed.

#[local] Hint Resolve keeps_getCart : keeps.

Lemma keeps_addItem (P : Platform) (item : JsVal) : keeps (CartAPI.addItem P item).
Proof. unfold CartAPI.addItem, CartAPI.log_and_rethrow. keeps_tac. Qed.

Lemma keeps_addItems (P : Platform) (items : JsVal) : keeps (CartAPI.addItems P items).
Proof. unfold CartAPI.addItems, CartAPI.log_and_rethrow. keeps_tac. Qed.

Lemma keeps_updateItem (P : Platform) (key : string) (q : JsVal) :
  keeps (CartAPI.updateItem P key q).
Proof. unfold CartAPI.updateItem, CartAPI.log_and_rethrow. keeps_tac. Qed.

Lemma keeps_removeItem_api (P : Platform) (key : string) :
  keeps (CartAPI.removeItem P key).
Proof. unfold CartAPI.removeItem, CartAPI.log_and_rethrow. keeps_tac. Qed.

#[local] Hint Resolve keeps_addItem keeps_addItems keeps_updateItem
  keeps_removeItem_api : keeps.

Lemma keeps_assign_directly (P : Platform) (cartData : JsVal) (b : bool) :
  keeps (CartManager.assign_directly P cartData b).
Proof. unfold CartManager.assign_directly. keeps_tac. Qed.

#[local] Hint Resolve keeps_assign_directly : keeps.

Lemma keeps_addToCart (P : Platform) (itemOrItems : JsVal) (openCart : bool) :
  keeps (CartManager.addToCart P itemOrItems openCart).
Proof. unfold CartManager.addToCart. keeps_tac. Qed.

Lemma keeps_updateQuantity (P : Platform) (key : string) (q : JsVal) :
  keeps (CartManager.updateQuantity P key q).
Proof. unfold CartManager.updateQuantity. keeps_tac. Qed.

Lemma keeps_removeItem (P : Platform) (key : string) :
  keeps (CartManager.removeItem P key).
Proof. unfold CartManager.removeItem. keeps_tac. Qed.

Lemma keeps_loadInitialCart (P : Platform) : keeps (CartManager.loadInitialCart P).
Proof. unfold CartManager.loadInitialCart. keeps_tac. Qed.

#[local] Hint Resolve keeps_addToCart keeps_updateQuantity keeps_removeItem
  keeps_loadInitialCart : keeps.

Lemma keeps_store_getItem (key : string) : keeps (CartManager.store_getItem key).
Proof. intros w. now constructor. Qed.

#[local] Hint Resolve keeps_store_getItem : keeps.

Lemma keeps_incrementQuantity (P : Platform) (key : string) :
  keeps (CartManager.incrementQuantity P key).
Proof. unfold CartManager.incrementQuantity. keeps_tac. Qed.

Lemma keeps_decrementQuantity (P : Platform) (key : string) :
  keeps (CartManager.decrementQuantity P key).
Proof. unfold CartManager.decrementQuantity. keeps_tac. Qed.

Lemma keeps_methods_removeItem (P : Platform) (key : string) :
  keeps (CartManager.methods_removeItem P key).
Proof. unfold CartManager.methods_removeItem. keeps_tac. Qed.

(** *** The two handlers *)

Lemma is_processing_flags (el : Element) (w w' : World) :
  processing w = processing w' ->
  CartManager.is_processing el w = CartManager.is_processing el w'.
Proof. unfold CartManager.is_processing. now intros ->. Qed.

Lemma quiet_release (el : Element) (b : bool) :
  quiet (Some el)
    (CartManager.on_store b (CartStore.setLoading false) ;;!
     modify (set_processing el "false")).
Proof. intros w. destruct b; eexists; split; reflexivity. Qed.

Lemma handleFormSubmit_busy (P : Platform) (form : FormElement) (w : World) :
  CartManager.is_processing (form_el form) w = true ->
  CartManager.handleFormSubmit P form w = Done w (Normal tt).
Proof.
  intros Hbusy. unfold CartManager.handleFormSubmit, bind, gets.
  cbn [obind]. now rewrite Hbusy.
Qed.

Lemma handleQuickAdd_busy (P : Platform) (button : ButtonElement) (w : World) :
  CartManager.is_processing (button_el button) w = true ->
  CartManager.handleQuickAdd P button w = Done w (Normal tt).
Proof.
  intros Hbusy. unfold CartManager.handleQuickAdd, bind, gets.
  cbn [obind]. now rewrite Hbusy.
Qed.

Lemma handleFormSubmit_owned (P : Platform) (form : FormElement) (w : World) :
  CartManager.is_processing (form_el form) w = false ->
  owned (Some (form_el form)) (set_processing (form_el form) "true" w)
    (CartManager.handleFormSubmit P form w).
Proof.
  intros Hidle. unfold CartManager.handleFormSubmit.
  unfold bind at 1. unfold gets at 1. cbn [obind]. rewrite Hidle.
  unfold bind at 1. unfold modify at 1. cbn [obind].
  unfold bind at 1. unfold gets at 1. cbn [obind].
  set (w1 := set_processing (form_el form) "true" w).
  set (cartStore := CartManager.getCartStore w1).
  unfold bind at 1.
  assert (Hpre : exists w2,
             CartManager.on_store cartStore (CartStore.setLoading true) w1
             = Done w2 (Normal tt) /\ processing w2 = processing w1).
  { destruct cartStore; eexists; split; reflexivity. }
  destruct Hpre as (w2 & -> & Hw2). cbn [obind].
  apply (owned_rebase _ w2 w1 _ Hw2).
  apply owned_ofinally; [|apply quiet_release].
  apply keeps_try_catch; keeps_tac.
Qed.

Lemma handleQuickAdd_owned (P : Platform) (button : ButtonElement) (w : World) :
  CartManager.is_processing (button_el button) w = false ->
  owned (Some (button_el button)) (set_processing (button_el button) "true" w)
    (CartManager.handleQuickAdd P button w).
Proof.
  intros Hidle. unfold CartManager.handleQuickAdd.
  unfold bind at 1. unfold gets at 1. cbn [obind]. rewrite Hidle.
  unfold bind at 1. unfold modify at 1. cbn [obind].
  unfold bind at 1. unfold gets at 1. cbn [obind].
  set (w1 := set_processing (button_el button) "true" w).
  set (cartStore := CartManager.getCartStore w1).
  unfold bind at 1.
  assert (Hpre : exists w2,
             CartManager.on_store cartStore (CartStore.setLoading true) w1
             = Done w2 (Normal tt) /\ processing w2 = processing w1).
  { destruct cartStore; eexists; split; reflexivity. }
  destruct Hpre as (w2 & -> & Hw2). cbn [obind].
  apply (owned_rebase _ w2 w1 _ Hw2).
  apply owned_ofinally; [|apply quiet_release].
  apply keeps_try_catch; keeps_tac.
Qed.

(** *** The invariant of the page *)

Lemma is_processing_release_same (el : Element) (w w0 : World) :
  processing w = release (Some el) (processing w0) ->
  CartManager.is_processing el w = false.
Proof.
  unfold CartManager.is_processing. intros ->. cbn [release].
  now rewrite lookup_insert_eq.
Qed.

Lemma is_processing_release_other (el el' : Element) (w w0 : World) :
  processing w = release (Some el) (processing w0) ->
  el <> el' ->
  CartManager.is_processing el' w = CartManager.is_processing el' w0.
Proof.
  unfold CartManager.is_processing. intros -> Hne. cbn [release].
  now rewrite lookup_insert_ne.
Qed.

Lemma settle_ok (o : option Element) (out : Outcome unit) (w_r : World)
    (others : list PendingTask) :
  owned o w_r out ->
  Forall task_owned others ->
  NoDup (omap owner others ++ option_list o) ->
  (forall el, CartManager.is_processing el w_r = true
              <-> el ∈ omap owner others \/ o = Some el) ->
  page_ok (settle o out others).
Proof.
  intros Hown Htasks Hnodup Hflags.
  apply NoDup_app in Hnodup as (Hnd & Hfresh & _).
  destruct Hown as [w0 w c Hw | w0 w req k Hw Hk | w0 w k Hw Hk]; cbn [settle].
  - split; unfold in_flight; cbn [world pending]; [exact Htasks | exact Hnd |].
    intros el. destruct o as [t|]; cbn [release] in Hw.
    + destruct (decide (t = el)) as [->|Hne].
      * rewrite (is_processing_release_same el w w0 Hw). split; [discriminate|].
        intros Hin. exfalso. apply (Hfresh el Hin). cbn. left.
      * rewrite (is_processing_release_other t el w w0 Hw Hne).
        rewrite Hflags. split; [|auto]. intros [H|H]; [exact H | congruence].
    + rewrite (is_processing_flags el w w0 Hw). rewrite Hflags.
      split; [|auto]. intros [H|H]; [exact H | discriminate].
  - split; unfold in_flight; cbn [world pending].
    + apply Forall_app. split; [exact Htasks|]. repeat constructor. exact Hk.
    + rewrite omap_app. cbn [omap owner]. apply NoDup_app. split; [exact Hnd|].
      split; [|destruct o; repeat constructor; apply not_elem_of_nil].
      intros x Hx. specialize (Hfresh x Hx). destruct o; exact Hfresh.
    + intros el. rewrite (is_processing_flags el w w0 Hw), Hflags.
      rewrite omap_app, elem_of_app. cbn [omap owner].
      destruct o as [t|]; simpl; rewrite ?list_elem_of_singleton;
        split; intros [H|H]; auto; try (now inversion H);
        right; congruence.
  - split; unfold in_flight; cbn [world pending].
    + apply Forall_app. split; [exact Htasks|]. repeat constructor. exact Hk.
    + rewrite omap_app. cbn [omap owner]. apply NoDup_app. split; [exact Hnd|].
      split; [|destruct o; repeat constructor; apply not_elem_of_nil].
      intros x Hx. specialize (Hfresh x Hx). destruct o; exact Hfresh.
    + intros el. rewrite (is_processing_flags el w w0 Hw), Hflags.
      rewrite omap_app, elem_of_app. cbn [omap owner].
      destruct o as [t|]; simpl; rewrite ?list_elem_of_singleton;
        split; intros [H|H]; auto; try (now inversion H);
        right; congruence.
Qed.

Lemma is_processing_set_same (el : Element) (w : World) :
  CartManager.is_processing el (set_processing el "true" w) = true.
Proof.
  unfold CartManager.is_processing. cbn [processing set_processing].
  now rewrite lookup_insert_eq.
Qed.

Lemma is_processing_set_other (el el' : Element) (v : string) (w : World) :
  el <> el' ->
  CartManager.is_processing el' (set_processing el v w)
  = CartManager.is_processing el' w.
Proof.
  intros Hne. unfold CartManager.is_processing. cbn [processing set_processing].
  now rewrite lookup_insert_ne.
Qed.

(** A handler of a flagged element, started on a page that is in order. *)
Lemma trigger_ok (pg : Page) (el : Element) (out : Outcome unit) :
  page_ok pg ->
  (CartManager.is_processing el (world pg) = true -> out = Done (world pg) (Normal tt)) ->
  (CartManager.is_processing el (world pg) = false ->
   owned (Some el) (set_processing el "true" (world pg)) out) ->
  page_ok (settle (Some el) out (pending pg)).
Proof.
  intros [Htasks Hnd Hflags] Hbusy Hidle.
  destruct (CartManager.is_processing el (world pg)) eqn:Hel.
  - rewrite (Hbusy eq_refl). cbn [settle]. now split.
  - apply (settle_ok _ _ (set_processing el "true" (world pg)));
      [now apply Hidle | exact Htasks | |].
    + apply NoDup_app. split; [exact Hnd|].
      split; [|repeat constructor; apply not_elem_of_nil].
      intros x Hx Hin. apply list_elem_of_singleton in Hin. subst x.
      apply Hflags in Hx. congruence.
    + intros el'. destruct (decide (el = el')) as [<-|Hne].
      * rewrite is_processing_set_same. split; auto.
      * rewrite (is_processing_set_other el el' _ _ Hne), Hflags.
        split; [auto|]. intros [H|H]; [exact H | congruence].
Qed.

(** A function without a trigger, started on a page that is in order. *)
Lemma untracked_ok (pg : Page) (out : Outcome unit) :
  page_ok pg -> owned None (world pg) out -> page_ok (settle None out (pending pg)).
Proof.
  intros [Htasks Hnd Hflags] Hout.
  apply (settle_ok _ _ (world pg)); [exact Hout | exact Htasks | |].
  - simpl. now rewrite app_nil_r.
  - intros el. rewrite Hflags. split; [auto|]. intros [H|H]; [exact H | discriminate].
Qed.

(** A suspended function that is resumed on a page that is in order. *)
Lemma resumed_ok (pg : Page) (i : nat) (p : PendingTask) (out : Outcome unit) :
  page_ok pg ->
  pending pg !! i = Some p ->
  owned (owner p) (world pg) out ->
  page_ok (settle (owner p) out (delete i (pending pg))).
Proof.
  intros [Htasks Hnd Hflags] Hp Hout.
  pose proof (delete_Permutation _ _ _ Hp) as Hperm.
  assert (Hfl : in_flight pg ≡ₚ omap owner (delete i (pending pg)) ++ option_list (owner p)).
  { unfold in_flight. rewrite Hperm at 1.
    change (omap owner (p :: delete i (pending pg)))
      with (match owner p with
            | Some t => t :: omap owner (delete i (pending pg))
            | None => omap owner (delete i (pending pg))
            end).
    destruct (owner p) as [t|]; simpl.
    - apply Permutation_cons_append.
    - now rewrite app_nil_r. }
  apply (settle_ok _ _ (world pg)); [exact Hout | | |].
  - rewrite Hperm in Htasks. now apply Forall_cons in Htasks as [_ H].
  - now rewrite <- Hfl.
  - intros el. rewrite Hflags, Hfl, elem_of_app.
    destruct (owner p) as [t|]; simpl;
      rewrite ?list_elem_of_singleton; split; intros [H|H]; auto;
      try (now inversion H); right; congruence.
Qed.

Lemma step_ok (P : Platform) (pg : Page) (ev : Event) :
  page_ok pg -> page_ok (step P pg ev).
Proof.
  intros Hpg. destruct ev as [form|button|key|key|key| |i r|i]; cbn [step].
  - apply trigger_ok; [exact Hpg | apply handleFormSubmit_busy
                       | apply handleFormSubmit_owned].
  - apply trigger_ok; [exact Hpg | apply handleQuickAdd_busy
                       | apply handleQuickAdd_owned].
  - apply untracked_ok; [exact Hpg | apply keeps_incrementQuantity].
  - apply untracked_ok; [exact Hpg | apply keeps_decrementQuantity].
  - apply untracked_ok; [exact Hpg | apply keeps_methods_removeItem].
  - apply untracked_ok; [exact Hpg | apply keeps_loadInitialCart].
  - destruct (pending pg !! i) as [[o [req k|k]]|] eqn:Hp; try exact Hpg.
    apply (resumed_ok pg i (mkPending o (OnFetch req k))); [exact Hpg | exact Hp |].
    destruct Hpg as [Htasks _ _].
    rewrite Forall_lookup in Htasks. apply (Htasks i _ Hp).
  - destruct (pending pg !! i) as [[o [req k|k]]|] eqn:Hp; try exact Hpg.
    apply (resumed_ok pg i (mkPending o (OnBody k))); [exact Hpg | exact Hp |].
    destruct Hpg as [Htasks _ _].
    rewrite Forall_lookup in Htasks. apply (Htasks i _ Hp).
Qed.

Lemma fresh_ok (w : World) : fresh w -> page_ok (mkPage w []).
Proof.
  intros Hw. split; cbn.
  - constructor.
  - constructor.
  - intros el. rewrite (Hw el). split; [discriminate|]. intros H. inversion H.
Qed.

Lemma run_ok (P : Platform) (evs : list Event) :
  forall pg, page_ok pg -> page_ok (run P pg evs).
Proof.
  unfold run. induction evs as [|ev evs IH]; intros pg Hpg; cbn [fold_left].
  - exact Hpg.
  - apply IH, step_ok, Hpg.
Qed.

(** *** A trigger that is idle again *)

Lemma submit_when_idle (P : Platform) (form : FormElement) (pg : Page) (id : string) :
  CartManager.is_processing (form_el form) (world pg) = false ->
  FormData_get "id" (form_entries form) = VStr id ->
  id <> "" ->
  exists item k w1,
    step P pg (Submit form)
    = mkPage w1
        (pending pg
           ++ [mkPending (Some (form_el form)) (OnFetch (add_request item) k)])
    /\ requests w1 = (requests (world pg) ++ [add_request item])%list
    /\ CartManager.is_processing (form_el form) w1 = true.
Proof.
  intros Hidle Hid Hne.
  assert (Ht : truthy (VStr id) = true).
  { cbn. destruct (String.eqb_spec id ""); [contradiction|reflexivity]. }
  cbn [step]. unfold CartManager.handleFormSubmit.
  unfold bind at 1. unfold gets at 1. cbn [obind]. rewrite Hidle.
  unfold bind at 1. unfold modify at 1. cbn [obind].
  unfold bind at 1. unfold gets at 1. cbn [obind].
  rewrite Hid. unfold CartManager.addToCart. cbn [Array_isArray].
  unfold_tasks. rewrite ?Ht.
  repeat (task_cbn; cbn [settle set_processing]; task_case).
  all: try (rewrite Ht in *; discriminate).
  all: task_cbn; cbn [settle set_processing].
  all: do 3 eexists; (split; [reflexivity|]); (split; [reflexivity|]).
  all: unfold CartManager.is_processing; cbn [processing log_request set_cart].
  all: exact (is_processing_set_same _ _).
Qed.

Lemma quick_add_when_idle (P : Platform) (button : ButtonElement) (pg : Page)
    (id : string) :
  CartManager.is_processing (button_el button) (world pg) = false ->
  data_variantId button = Some id ->
  id <> "" ->
  exists item k w1,
    step P pg (QuickAddClick button)
    = mkPage w1
        (pending pg
           ++ [mkPending (Some (button_el button)) (OnFetch (add_request item) k)])
    /\ requests w1 = (requests (world pg) ++ [add_request item])%list
    /\ CartManager.is_processing (button_el button) w1 = true.
Proof.
  intros Hidle Hid Hne.
  assert (Ht : truthy (VStr id) = true).
  { cbn. destruct (String.eqb_spec id ""); [contradiction|reflexivity]. }
  cbn [step]. unfold CartManager.handleQuickAdd.
  unfold bind at 1. unfold gets at 1. cbn [obind]. rewrite Hidle.
  unfold bind at 1. unfold modify at 1. cbn [obind].
  unfold bind at 1. unfold gets at 1. cbn [obind].
  rewrite Hid. cbn [or_undefined]. unfold js_or at 1. rewrite Ht.
  unfold CartManager.addToCart. cbn [Array_isArray].
  unfold_tasks. rewrite ?Ht.
  repeat (task_cbn; cbn [settle set_processing]; task_case).
  all: try (rewrite Ht in *; discriminate).
  all: task_cbn; cbn [settle set_processing].
  all: do 3 eexists; (split; [reflexivity|]); (split; [reflexivity|]).
  all: unfold CartManager.is_processing; cbn [processing log_request set_cart].
  all: exact (is_processing_set_same _ _).
Qed.

(** C1. On a page that started with no element flagged, after any
    sequence of submissions, clicks and network answers:
    no element has two mutations in flight; an element is flagged
    "true" exactly while a mutation it started is suspended, so the flag
    is gone once that mutation has ended, on whichever path; a
    submission or click on an element with a mutation in flight leaves
    the page as it is (no request, nothing queued, no error); and a
    product form or quick-add button that has none in flight and names a
    variant sends its POST to /cart/add.js and is in flight. *)
Theorem duplicate_submit_is_dropped (P : Platform) (w0 : World) (evs : list Event) :
  fresh w0 ->
  NoDup (in_flight (run P (mkPage w0 []) evs))
  /\ (forall el,
        CartManager.is_processing el (world (run P (mkPage w0 []) evs)) = true
        <-> el ∈ in_flight (run P (mkPage w0 []) evs))
  /\ (forall form,
        form_el form ∈ in_flight (run P (mkPage w0 []) evs) ->
        step P (run P (mkPage w0 []) evs) (Submit form)
        = run P (mkPage w0 []) evs)
  /\ (forall button,
        button_el button ∈ in_flight (run P (mkPage w0 []) evs) ->
        step P (run P (mkPage w0 []) evs) (QuickAddClick button)
        = run P (mkPage w0 []) evs)
  /\ (forall form id,
        form_el form ∉ in_flight (run P (mkPage w0 []) evs) ->
        FormData_get "id" (form_entries form) = VStr id ->
        id <> "" ->
        exists item k w1,
          step P (run P (mkPage w0 []) evs) (Submit form)
          = mkPage w1
              (pending (run P (mkPage w0 []) evs)
                 ++ [mkPending (Some (form_el form)) (OnFetch (add_request item) k)])
          /\ requests w1
             = (requests (world (run P (mkPage w0 []) evs)) ++ [add_request item])%list)
  /\ (forall button id,
        button_el button ∉ in_flight (run P (mkPage w0 []) evs) ->
        data_variantId button = Some id ->
        id <> "" ->
        exists item k w1,
          step P (run P (mkPage w0 []) evs) (QuickAddClick button)
          = mkPage w1
              (pending (run P (mkPage w0 []) evs)
                 ++ [mkPending (Some (button_el button))
                       (OnFetch (add_request item) k)])
          /\ requests w1
             = (requests (world (run P (mkPage w0 []) evs)) ++ [add_request item])%list).
Proof.
  intros Hfresh.
  pose proof (run_ok P evs _ (fresh_ok w0 Hfresh)) as Hok.
  set (pg := run P (mkPage w0 []) evs) in *.
  destruct Hok as [Htasks Hnd Hflags].
  assert (Hidle : forall el, el ∉ in_flight pg ->
                             CartManager.is_processing el (world pg) = false).
  { intros el Hel. destruct (CartManager.is_processing el (world pg)) eqn:E;
      [|reflexivity]. now apply Hflags in E. }
  split; [exact Hnd|]. split; [exact Hflags|].
  split; [|split; [|split]].
  - intros form Hin. apply Hflags in Hin. cbn [step].
    rewrite (handleFormSubmit_busy P form _ Hin). cbn [settle]. now destruct pg.
  - intros button Hin. apply Hflags in Hin. cbn [step].
    rewrite (handleQuickAdd_busy P button _ Hin). cbn [settle]. now destruct pg.
  - intros form id Hout Hid Hne.
    destruct (submit_when_idle P form pg id (Hidle _ Hout) Hid Hne)
      as (item & k & w1 & Hstep & Hreq & _). eauto.
  - intros button id Hout Hid Hne.
    destruct (quick_add_when_idle P button pg id (Hidle _ Hout) Hid Hne)
      as (item & k & w1 & Hstep & Hreq & _). eauto.
Qed.

(** Two submissions of the same form before the network answers: one
    request. *)
Lemma duplicate_submit_is_dropped_witness :
  step bare_platform (run bare_platform (mkPage blank_world []) [Submit form_7])
    (Submit form_7)
  = run bare_platform (mkPage blank_world []) [Submit form_7]
  /\ length (requests (world (run bare_platform (mkPage blank_world [])
                                [Submit form_7; Submit form_7]))) = 1%nat.
Proof.
  assert (Hfresh : fresh blank_world) by (intros el; reflexivity).
  destruct (duplicate_submit_is_dropped bare_platform blank_world [Submit form_7] Hfresh)
    as (_ & _ & Hdrop & _).
  assert (Hin : form_el form_7 ∈ in_flight
                  (run bare_platform (mkPage blank_world []) [Submit form_7]))
    by (cbn; left).
  split; [exact (Hdrop form_7 Hin)|].
  change (run bare_platform (mkPage blank_world []) [Submit form_7; Submit form_7])
    with (step bare_platform
            (run bare_platform (mkPage blank_world []) [Submit form_7])
            (Submit form_7)).
  rewrite (Hdrop form_7 Hin). reflexivity.
Defined.

(** ** The scenario of the specification *)

(** On an empty cart, updating "abc" to quantity 3, answered by a
    snapshot of one line of quantity 3 and a total of 2997, leaves the
    store with count 3, total 2997, "$29.97" and no error. *)
Example update_scenario :
  exists w',
    run_alone (CartManager.updateQuantity bare_platform "abc" (VNum 3) blank_world)
      [Resolved 200 (JsonBody "" snapshot_abc)]
    = Done w' (Normal snapshot_abc)
    /\ requests w' = [change_request "abc" (VNum 3)]
    /\ cart w'
       = CartStore.mk [line_abc 3] (VNum 3) (VNum 2997) (VStr "$29.97") false None.
Proof. eexists. repeat split. Qed.

(** * Further properties *)

(** Case analysis on the state of Alpine, then on the run. *)
Ltac alpine_run w :=
  unfold CartManager.getCartStore in *;
  let HA := fresh "HA" in
  destruct (Alpine w) eqn:HA;
  repeat (task_cbn; rewrite ?HA in *; task_case);
  task_cbn; rewrite ?HA in *; try congruence.

(** The same for a function whose promise is dropped. *)
Ltac detached_cbn :=
  cbn [obind ocatch ofinally run_alone CartManager.detach
       ok status rbody bodyUsed negb disturbed
       cart set_cart log_request Alpine requests processing drawer_timers
       CartManager.getCartStore CartManager.Alpine_defined
       CartManager.Alpine_store_cart andb orb] in *.

Ltac detached_cases := repeat (detached_cbn; task_case); detached_cbn.

(** ** Initial hydration *)

Lemma not_ok_failure (code : Z) (payload : Body) :
  ~ success code -> ok (mkResponse code payload false) = false.
Proof.
  unfold success, ok. cbn [status]. intros H.
  destruct (200 <=? code) eqn:E1; [|reflexivity].
  destruct (code <=? 299) eqn:E2; [|reflexivity].
  apply Z.leb_le in E1, E2. lia.
Qed.

Lemma updateCart_loading (P : Platform) (st st' : CartStore.t) (cartData : JsVal) :
  CartStore.updateCart P st cartData = Normal st' ->
  CartStore.loading st' = CartStore.loading st.
Proof.
  unfold CartStore.updateCart.
  destruct (get_prop cartData "items"); cbn [cbind]; [|discriminate].
  destruct (get_prop cartData "item_count"); cbn [cbind]; [|discriminate].
  destruct (get_prop cartData "total_price"); cbn [cbind]; [|discriminate].
  intros H. injection H as <-. reflexivity.
Qed.

(** X1. [loadInitialCart] never rejects and never touches [loading]: run
    on its own it makes the single GET of /cart.js, and whatever the
    answer (a snapshot, an error status, text that is not JSON, a network
    failure) it ends normally, with [loading], the flags and the drawer
    as it found them. *)
Theorem loadInitialCart_is_quiet (P : Platform) (w : World)
    (r : FetchResult) (rest : list FetchResult) :
  exists w',
    run_alone (CartManager.loadInitialCart P w) (r :: rest) = Done w' (Normal tt)
    /\ requests w' = (requests w ++ [snapshot_request])%list
    /\ CartStore.loading (cart w') = CartStore.loading (cart w)
    /\ processing w' = processing w
    /\ drawer_timers w' = drawer_timers w.
Proof.
  unfold CartManager.loadInitialCart. unfold_tasks. run_cases.
  all: eexists; split; [reflexivity|]; repeat split.
  all: cbn [cart set_cart log_request];
    match goal with
    | H : CartStore.updateCart _ _ _ = Normal _ |- _ =>
        rewrite (updateCart_loading _ _ _ _ H)
    end; reflexivity.
Qed.

(** X2. What [loadInitialCart] leaves in the store: nothing changes when
    the GET fails; after a success answer with a JSON body the store
    holds that snapshot with [loading] as it was, unless there is no
    store or the body is [null], in which case nothing changes. *)
Theorem loadInitialCart_store (P : Platform) (w : World) :
  (forall replies wg e,
      run_alone (CartAPI.getCart P w) replies = Done wg (Abrupt e) ->
      exists w',
        run_alone (CartManager.loadInitialCart P w) replies = Done w' (Normal tt)
        /\ cart w' = cart w)
  /\ (forall code raw snapshot rest,
        success code ->
        exists w',
          run_alone (CartManager.loadInitialCart P w)
            (Resolved code (JsonBody raw snapshot) :: rest)
          = Done w' (Normal tt)
          /\ cart w'
             = if CartManager.getCartStore w && negb (is_nullish snapshot)
               then store_of_snapshot P snapshot (CartStore.loading (cart w))
               else cart w).
Proof.
  split.
  - intros replies wg e H.
    unfold CartManager.loadInitialCart in *. unfold_tasks. run_cases.
    all: eexists; split; reflexivity.
  - intros code raw snapshot rest Hcode.
    pose proof (ok_success code (JsonBody raw snapshot) Hcode) as Hok.
    unfold CartManager.loadInitialCart. unfold_tasks.
    cbn [obind ocatch run_alone]. rewrite Hok.
    cbn [negb obind ocatch run_alone rbody bodyUsed].
    destruct (is_nullish snapshot) eqn:Hn.
    + destruct (get_prop_nullish snapshot "items" Hn) as [e He].
      destruct (updateCart_nullish P (cart w) snapshot Hn) as [e' He'].
      rewrite andb_false_r. alpine_run w.
      all: try (eexists; split; reflexivity).
      all: rewrite He in *; discriminate.
    + rewrite andb_true_r. rewrite !(get_prop_defined _ _ Hn).
      alpine_run w.
      all: try (eexists; split; reflexivity).
      all: rewrite ?(updateCart_defined _ _ _ Hn) in *; try discriminate.
      all: try match goal with
               | H : Normal _ = Normal _ |- _ => injection H as <-
               end.
      all: eexists; split; reflexivity.
Qed.

Lemma loadInitialCart_store_witness :
  exists w',
    run_alone (CartManager.loadInitialCart bare_platform sold_out_world)
      [Resolved 200 (JsonBody "" snapshot_abc)]
    = Done w' (Normal tt)
    /\ cart w' = store_of_snapshot bare_platform snapshot_abc false.
Proof.
  apply (proj2 (loadInitialCart_store bare_platform sold_out_world)
           200 "" snapshot_abc []).
  unfold success. lia.
Defined.

(** ** Bundles, updates and removals that succeed *)

(** X3. A bundle is added like a single item: when the POST and the GET
    both succeed with JSON bodies, [addItems] makes the POST of
    [{items}] to /cart/add.js, then the GET of /cart.js, and returns
    what the GET sent; [addToCart], given an array, takes that path,
    leaves the store holding the snapshot with [loading] off and no
    error, and schedules the drawer once if asked to. *)
Theorem addItems_posts_then_gets (P : Platform) (bundle : list JsVal) (w : World)
    (post_code get_code : Z) (post_raw get_raw : string)
    (added snapshot : JsVal) :
  success post_code ->
  success get_code ->
  (exists wg,
      run_alone (CartAPI.addItems P (VArr bundle) w)
        [Resolved post_code (JsonBody post_raw added);
         Resolved get_code (JsonBody get_raw snapshot)]
      = Done wg (Normal snapshot)
      /\ requests wg
         = (requests w
            ++ [add_request (VObj [("items", VArr bundle)]); snapshot_request])%list)
  /\ (CartManager.getCartStore w = true ->
      is_nullish snapshot = false ->
      forall openCart,
      exists w',
        run_alone (CartManager.addToCart P (VArr bundle) openCart w)
          [Resolved post_code (JsonBody post_raw added);
           Resolved get_code (JsonBody get_raw snapshot)]
        = Done w' (Normal snapshot)
        /\ requests w'
           = (requests w
              ++ [add_request (VObj [("items", VArr bundle)]); snapshot_request])%list
        /\ cart w' = store_of_snapshot P snapshot false
        /\ drawer_timers w'
           = (drawer_timers w + if openCart then 1 else 0)%nat).
Proof.
  intros Hpost Hget.
  pose proof (ok_success post_code (JsonBody post_raw added) Hpost) as Hok1.
  pose proof (ok_success get_code (JsonBody get_raw snapshot) Hget) as Hok2.
  split.
  - unfold_tasks. cbn [obind ocatch ofinally run_alone].
    rewrite Hok1. cbn [negb obind ocatch ofinally run_alone rbody bodyUsed].
    rewrite Hok2. cbn [negb obind ocatch ofinally run_alone rbody bodyUsed].
    eexists. split; [reflexivity|].
    cbn [requests log_request]. now rewrite <- app_assoc.
  - intros Hstore Hdef openCart.
    unfold CartManager.addToCart. cbn [Array_isArray]. unfold_tasks.
    alpine_run w.
    all: rewrite ?Hok1, ?Hok2, ?(get_prop_defined _ _ Hdef),
           ?(updateCart_defined _ _ _ Hdef) in *; cbn [negb] in *.
    all: try discriminate.
    all: repeat (task_cbn; task_case).
    all: eexists; split; [reflexivity|]; split;
      [cbn [requests log_request set_cart schedule_drawer];
       now rewrite <- app_assoc |]; split; [reflexivity|];
      cbn [drawer_timers log_request set_cart schedule_drawer]; lia.
Qed.

Lemma addItems_posts_then_gets_witness :
  exists w',
    run_alone
      (CartManager.addToCart bare_platform (VArr [item_V1; item_V1]) true blank_world)
      [Resolved 200 (JsonBody "{}" (VObj [])); Resolved 200 (JsonBody "" snapshot_abc)]
    = Done w' (Normal snapshot_abc)
    /\ cart w' = store_of_snapshot bare_platform snapshot_abc false
    /\ drawer_timers w' = 1%nat.
Proof.
  destruct (proj2 (addItems_posts_then_gets bare_platform [item_V1; item_V1]
                     blank_world 200 200 "{}" "" (VObj []) snapshot_abc
                     ltac:(unfold success; lia) ltac:(unfold success; lia))
              eq_refl eq_refl true) as (w' & Hrun & _ & Hcart & Hd).
  exists w'. repeat split; assumption.
Defined.

(** X4. A quantity update or a removal that the server accepts makes the
    one POST to /cart/change.js and no GET; its answer is returned as it
    is and becomes the store's snapshot, with [loading] off and no
    error, and the drawer is not opened. *)
Theorem change_applies_answer (P : Platform) (key : string) (w : World)
    (code : Z) (raw : string) (snapshot : JsVal) (rest : list FetchResult) :
  success code ->
  CartManager.getCartStore w = true ->
  is_nullish snapshot = false ->
  (forall quantity,
      exists w',
        run_alone (CartManager.updateQuantity P key quantity w)
          (Resolved code (JsonBody raw snapshot) :: rest)
        = Done w' (Normal snapshot)
        /\ requests w' = (requests w ++ [change_request key quantity])%list
        /\ cart w' = store_of_snapshot P snapshot false
        /\ drawer_timers w' = drawer_timers w)
  /\ (exists w',
        run_alone (CartManager.removeItem P key w)
          (Resolved code (JsonBody raw snapshot) :: rest)
        = Done w' (Normal snapshot)
        /\ requests w' = (requests w ++ [change_request key (VNum 0)])%list
        /\ cart w' = store_of_snapshot P snapshot false
        /\ drawer_timers w' = drawer_timers w).
Proof.
  intros Hcode Hstore Hdef.
  pose proof (ok_success code (JsonBody raw snapshot) Hcode) as Hok.
  split; [intros quantity|].
  - unfold_tasks. alpine_run w.
    all: rewrite ?Hok, ?(get_prop_defined _ _ Hdef),
           ?(updateCart_defined _ _ _ Hdef) in *; cbn [negb] in *.
    all: try discriminate.
    all: repeat (task_cbn; task_case).
    all: eexists; repeat split.
  - unfold_tasks. alpine_run w.
    all: rewrite ?Hok, ?(get_prop_defined _ _ Hdef),
           ?(updateCart_defined _ _ _ Hdef) in *; cbn [negb] in *.
    all: try discriminate.
    all: repeat (task_cbn; task_case).
    all: eexists; repeat split.
Qed.

Lemma change_applies_answer_witness :
  exists w',
    run_alone (CartManager.removeItem bare_platform "abc" one_left)
      [Resolved 200 (JsonBody "" snapshot_abc)]
    = Done w' (Normal snapshot_abc)
    /\ requests w' = [change_request "abc" (VNum 0)]
    /\ cart w' = store_of_snapshot bare_platform snapshot_abc false.
Proof.
  destruct (proj2 (change_applies_answer bare_platform "abc" one_left 200 ""
                     snapshot_abc [] ltac:(unfold success; lia) eq_refl eq_refl))
    as (w' & Hrun & Hreq & Hcart & _).
  exists w'. repeat split; assumption.
Defined.

(** ** Validation in the handlers *)

(** X5. A product form that names no variant (no non-empty [id] field and
    no non-empty id input) is rejected before any network call:
    [handleFormSubmit] returns at once and normally, no request is made,
    the form's flag is back to "false", and with a store at hand the
    snapshot is untouched, [loading] is off and [error] is "Variant ID
    not found. Please select a product variant.". *)
Theorem handleFormSubmit_without_variant (P : Platform) (form : FormElement)
    (w : World) :
  CartManager.is_processing (form_el form) w = false ->
  truthy (FormData_get "id" (form_entries form)) = false ->
  truthy (or_null (form_id_input form)) = false ->
  exists w',
    CartManager.handleFormSubmit P form w = Done w' (Normal tt)
    /\ requests w' = requests w
    /\ drawer_timers w' = drawer_timers w
    /\ processing w' = <[form_el form := "false"]> (processing w)
    /\ cart w'
       = if CartManager.getCartStore w
         then with_ui false
                (Some "Variant ID not found. Please select a product variant.")
                (cart w)
         else cart w.
Proof.
  intros Hidle Hid Hinput.
  unfold CartManager.handleFormSubmit.
  unfold bind at 1. unfold gets at 1. cbn [obind]. rewrite Hidle.
  unfold_tasks. rewrite Hid. cbn [negb]. rewrite Hinput. cbn [negb].
  unfold CartManager.getCartStore.
  destruct (Alpine w) eqn:HA;
    cbn [obind ocatch ofinally set_processing Alpine CartManager.getCartStore];
    rewrite ?HA; cbn [obind ocatch ofinally];
    (eexists; split; [reflexivity|]; repeat split;
     cbn [processing set_cart set_processing]; now rewrite insert_insert_eq).
Qed.

Lemma handleFormSubmit_without_variant_witness :
  exists w',
    CartManager.handleFormSubmit bare_platform (mkForm 7 [("quantity", "2")] None)
      blank_world
    = Done w' (Normal tt)
    /\ requests w' = []
    /\ CartStore.error (cart w')
       = Some "Variant ID not found. Please select a product variant.".
Proof.
  destruct (handleFormSubmit_without_variant bare_platform
              (mkForm 7 [("quantity", "2")] None) blank_world
              eq_refl eq_refl eq_refl)
    as (w' & Hrun & Hreq & _ & _ & Hcart).
  exists w'. split; [exact Hrun|]. split; [exact Hreq|]. now rewrite Hcart.
Defined.

(** X6. A quick-add button without a variant id, of its own or of the
    closest form, is rejected the same way: no request, flag back to
    "false", [loading] off, [error] "Variant ID not found". *)
Theorem handleQuickAdd_without_variant (P : Platform) (button : ButtonElement)
    (w : World) :
  CartManager.is_processing (button_el button) w = false ->
  truthy (or_undefined (data_variantId button)) = false ->
  truthy (or_undefined (closest_form_id button)) = false ->
  exists w',
    CartManager.handleQuickAdd P button w = Done w' (Normal tt)
    /\ requests w' = requests w
    /\ drawer_timers w' = drawer_timers w
    /\ processing w' = <[button_el button := "false"]> (processing w)
    /\ cart w'
       = if CartManager.getCartStore w
         then with_ui false (Some "Variant ID not found") (cart w)
         else cart w.
Proof.
  intros Hidle Hid Hform.
  unfold CartManager.handleQuickAdd.
  unfold bind at 1. unfold gets at 1. cbn [obind]. rewrite Hidle.
  unfold_tasks. unfold js_or at 1. rewrite Hid, Hform. cbn [negb].
  unfold CartManager.getCartStore.
  destruct (Alpine w) eqn:HA;
    cbn [obind ocatch ofinally set_processing Alpine CartManager.getCartStore];
    rewrite ?HA; cbn [obind ocatch ofinally];
    (eexists; split; [reflexivity|]; repeat split;
     cbn [processing set_cart set_processing]; now rewrite insert_insert_eq).
Qed.

Lemma handleQuickAdd_without_variant_witness :
  exists w',
    CartManager.handleQuickAdd bare_platform (mkButton 9 None (Some "3") (Some ""))
      blank_world
    = Done w' (Normal tt)
    /\ requests w' = []
    /\ CartStore.error (cart w') = Some "Variant ID not found".
Proof.
  destruct (handleQuickAdd_without_variant bare_platform
              (mkButton 9 None (Some "3") (Some "")) blank_world
              eq_refl eq_refl eq_refl)
    as (w' & Hrun & Hreq & _ & _ & Hcart).
  exists w'. split; [exact Hrun|]. split; [exact Hreq|]. now rewrite Hcart.
Defined.

(** ** The drawer, and how long a mutation takes *)

(** X7. The drawer is opened for a successful add and for nothing else:
    when [addToCart] has ended, one opening has been scheduled if it
    succeeded and was asked to open the cart, and none otherwise;
    [updateQuantity] and [removeItem] never schedule one. *)
Theorem drawer_opens_only_after_add (P : Platform) (w w' : World)
    (replies : list FetchResult) (c : Completion JsVal) :
  (forall itemOrItems openCart,
      run_alone (CartManager.addToCart P itemOrItems openCart w) replies
      = Done w' c ->
      drawer_timers w'
      = (drawer_timers w
         + match c with
           | Normal _ => if openCart then 1 else 0
           | Abrupt _ => 0
           end)%nat)
  /\ (forall key quantity,
        run_alone (CartManager.updateQuantity P key quantity w) replies
        = Done w' c ->
        drawer_timers w' = drawer_timers w)
  /\ (forall key,
        run_alone (CartManager.removeItem P key w) replies = Done w' c ->
        drawer_timers w' = drawer_timers w).
Proof.
  split; [|split].
  - intros itemOrItems openCart H. unfold_tasks. alpine_run w.
    all: cbn [drawer_timers log_request set_cart schedule_drawer]; lia.
  - intros key quantity H. unfold_tasks. alpine_run w.
    all: reflexivity.
  - intros key H. unfold_tasks. alpine_run w.
    all: reflexivity.
Qed.

Lemma drawer_opens_only_after_add_witness :
  exists w',
    run_alone (CartManager.addToCart bare_platform item_V1 true blank_world)
      [sold_out_reply]
    = Done w' (Abrupt (mkError "Error" "Sold out"))
    /\ drawer_timers w' = 0%nat.
Proof.
  eexists. split; [reflexivity|].
  apply (proj1 (drawer_opens_only_after_add bare_platform blank_world _
                  [sold_out_reply] (Abrupt (mkError "Error" "Sold out")))
           item_V1 true eq_refl).
Defined.

(** X8. A mutation needs at most two answers from the network: once two
    fetches have been answered, in whatever way, [addToCart] has ended,
    and [updateQuantity] and [removeItem] have ended after one; none of
    them makes more requests than that. *)
Theorem mutations_settle (P : Platform) (w : World)
    (r1 r2 : FetchResult) (rest : list FetchResult) :
  (forall itemOrItems openCart,
      exists w' c extra,
        run_alone (CartManager.addToCart P itemOrItems openCart w) (r1 :: r2 :: rest)
        = Done w' c
        /\ requests w' = (requests w ++ extra)%list
        /\ (1 <= length extra <= 2)%nat)
  /\ (forall key quantity,
        exists w' c,
          run_alone (CartManager.updateQuantity P key quantity w) (r1 :: rest)
          = Done w' c
          /\ requests w' = (requests w ++ [change_request key quantity])%list)
  /\ (forall key,
        exists w' c,
          run_alone (CartManager.removeItem P key w) (r1 :: rest) = Done w' c
          /\ requests w' = (requests w ++ [change_request key (VNum 0)])%list).
Proof.
  split; [|split].
  - intros itemOrItems openCart. unfold_tasks. alpine_run w.
    all: do 3 eexists; split; [reflexivity|];
      cbn [requests log_request set_cart schedule_drawer];
      rewrite <- ?app_assoc; split; [reflexivity|]; cbn; lia.
  - intros key quantity. unfold_tasks. alpine_run w.
    all: do 2 eexists; split; reflexivity.
  - intros key. unfold_tasks. alpine_run w.
    all: do 2 eexists; split; reflexivity.
Qed.

(** ** Failures of the network and of the follow-up GET *)

(** X9. When [fetch] itself fails, every gateway operation has made its
    one request and rethrows the error of the failure unchanged. *)
Theorem network_failure_is_rethrown (P : Platform) (w : World) (e : JsError)
    (rest : list FetchResult) :
  (forall item,
      run_alone (CartAPI.addItem P item w) (Rejected e :: rest)
      = Done (log_request (add_request item) w) (Abrupt e))
  /\ (forall items,
        run_alone (CartAPI.addItems P items w) (Rejected e :: rest)
        = Done (log_request (add_request (VObj [("items", items)])) w) (Abrupt e))
  /\ (forall key quantity,
        run_alone (CartAPI.updateItem P key quantity w) (Rejected e :: rest)
        = Done (log_request (change_request key quantity) w) (Abrupt e))
  /\ (forall key,
        run_alone (CartAPI.removeItem P key w) (Rejected e :: rest)
        = Done (log_request (change_request key (VNum 0)) w) (Abrupt e))
  /\ run_alone (CartAPI.getCart P w) (Rejected e :: rest)
     = Done (log_request snapshot_request w) (Abrupt e).
Proof. repeat split. Qed.

(** X10. An add whose POST is accepted but whose follow-up GET is answered
    with an error status fails with "Failed to fetch cart", whatever the
    body of that answer: both requests have been made, the store keeps
    the snapshot it had and shows that message, and no drawer opens. *)
Theorem add_fails_when_snapshot_fails (P : Platform) (item : JsVal) (w : World)
    (post_code get_code : Z) (post_raw : string) (added : JsVal) (payload : Body)
    (openCart : bool) :
  success post_code ->
  ~ success get_code ->
  Array_isArray item = false ->
  exists w',
    run_alone (CartManager.addToCart P item openCart w)
      [Resolved post_code (JsonBody post_raw added); Resolved get_code payload]
    = Done w' (Abrupt (mkError "Error" "Failed to fetch cart"))
    /\ requests w' = (requests w ++ [add_request item; snapshot_request])%list
    /\ drawer_timers w' = drawer_timers w
    /\ cart w'
       = if CartManager.getCartStore w
         then with_ui false (Some "Failed to fetch cart") (cart w)
         else cart w.
Proof.
  intros Hpost Hget Hone.
  pose proof (ok_success post_code (JsonBody post_raw added) Hpost) as Hok1.
  pose proof (not_ok_failure get_code payload Hget) as Hok2.
  unfold CartManager.addToCart. rewrite Hone. unfold_tasks. alpine_run w.
  all: rewrite ?Hok1, ?Hok2 in *; cbn [negb] in *.
  all: try discriminate.
  all: repeat (task_cbn; task_case).
  all: eexists; split; [reflexivity|]; split;
    [cbn [requests log_request set_cart]; now rewrite <- app_assoc|];
    split; reflexivity.
Qed.

Lemma add_fails_when_snapshot_fails_witness :
  exists w',
    run_alone (CartManager.addToCart bare_platform item_V1 true one_left)
      [Resolved 200 (JsonBody "{}" (VObj [])); server_error_reply]
    = Done w' (Abrupt (mkError "Error" "Failed to fetch cart"))
    /\ CartStore.items (cart w') = CartStore.items (cart one_left)
    /\ CartStore.error (cart w') = Some "Failed to fetch cart".
Proof.
  destruct (add_fails_when_snapshot_fails bare_platform item_V1 one_left
              200 500 "{}" (VObj [])
              (TextBody "<html><body>Internal Server Error</body></html>"
                 "Unexpected token '<', <html><bod... is not valid JSON")
              true ltac:(unfold success; lia) ltac:(unfold success; lia) eq_refl)
    as (w' & Hrun & _ & _ & Hcart).
  exists w'. split; [exact Hrun|]. rewrite Hcart. split; reflexivity.
Defined.

(** ** The shape of a formatted amount *)









(** ** Looking up a line *)

Lemma find_key_sound (key : string) (l : list JsVal) (item : JsVal) :
  CartStore.find_key key l = Normal item ->
  item = VUndefined \/ (item ∈ l /\ prop_of item "key" = VStr key).
Proof.
  induction l as [|x rest IH]; cbn [CartStore.find_key]; intros H.
  - left. congruence.
  - destruct (is_nullish x) eqn:Hn.
    + destruct (get_prop_nullish x "key" Hn) as [e He]. rewrite He in H.
      discriminate.
    + rewrite (get_prop_defined _ _ Hn) in H. cbn [cbind] in H.
      assert (Hrest : CartStore.find_key key rest = Normal item ->
                      item = VUndefined
                      \/ (item ∈ x :: rest /\ prop_of item "key" = VStr key)).
      { intros H'. destruct (IH H') as [->|[Hin Hk]]; [now left|].
        right. split; [now right | exact Hk]. }
      destruct (prop_of x "key") as [| | | |s| |] eqn:Hk; try (now apply Hrest).
      destruct (String.eqb_spec s key) as [->|Hne]; [|now apply Hrest].
      injection H as <-. right. split; [left | exact Hk].
Qed.

Lemma find_key_first (key : string) (before after : list JsVal) (item : JsVal) :
  Forall (fun x => is_nullish x = false /\ prop_of x "key" <> VStr key) before ->
  prop_of item "key" = VStr key ->
  CartStore.find_key key (before ++ item :: after)%list = Normal item.
Proof.
  intros Hbefore Hitem. induction Hbefore as [|x before [Hn Hk] _ IH].
  - cbn [app CartStore.find_key].
    assert (Hn : is_nullish item = false) by (destruct item; easy).
    rewrite (get_prop_defined _ _ Hn). cbn [cbind]. rewrite Hitem.
    now rewrite String.eqb_refl.
  - cbn [app CartStore.find_key]. rewrite (get_prop_defined _ _ Hn).
    cbn [cbind].
    destruct (prop_of x "key") as [| | | |s| |]; try exact IH.
    destruct (String.eqb_spec s key) as [->|Hne]; [congruence | exact IH].
Qed.

(** X12. [getItem(key)] answers with a line of the store or with [null]:
    a line it returns is an element of [items] whose [key] is the one
    asked for, and it is the first such line: the lines after it, with
    the same key or malformed, play no part. *)
Theorem getItem_returns_first_match (st : CartStore.t) (key : string) :
  (forall item,
      CartStore.getItem st key = Normal item ->
      item = VNull
      \/ (item ∈ CartStore.items st /\ prop_of item "key" = VStr key))
  /\ (forall before item after,
        CartStore.items st = (before ++ item :: after)%list ->
        Forall (fun x => is_nullish x = false /\ prop_of x "key" <> VStr key)
          before ->
        prop_of item "key" = VStr key ->
        CartStore.getItem st key = Normal item).
Proof.
  split.
  - intros item. unfold CartStore.getItem.
    destruct (CartStore.find_key key (CartStore.items st)) as [found|e] eqn:Hf;
      cbn [cbind]; [|discriminate].
    intros H. injection H as <-.
    destruct (find_key_sound key _ _ Hf) as [->|[Hin Hk]]; [now left|].
    right. assert (Ht : truthy found = true) by (destruct found; easy).
    unfold js_or. rewrite Ht. auto.
  - intros before item after Hitems Hbefore Hitem. unfold CartStore.getItem.
    rewrite Hitems, (find_key_first key before after item Hbefore Hitem).
    cbn [cbind]. assert (Ht : truthy item = true) by (destruct item; easy).
    unfold js_or. now rewrite Ht.
Qed.

Lemma getItem_returns_first_match_witness :
  CartStore.getItem
    (CartStore.mk [line_abc 2; VNull; line_abc 5] (VNum 7) (VNum 0) (VStr "") false None)
    "abc"
  = Normal (line_abc 2).
Proof.
  apply (proj2 (getItem_returns_first_match
                  (CartStore.mk [line_abc 2; VNull; line_abc 5]
                     (VNum 7) (VNum 0) (VStr "") false None) "abc")
           [] (line_abc 2) [VNull; line_abc 5]); [reflexivity | constructor | reflexivity].
Defined.

(** X13. [incrementQuantity] on a line that is in the store sets [loading]
    and sends one POST to /cart/change.js: for a numeric quantity [q] it
    asks for [q + 1]; for a quantity that came as a string it asks for
    that string with the text of the number 1 appended, since [+]
    concatenates.  Whatever the
    answer, the caller gets nothing back: a failure is dropped after it
    has been written to the store. *)
Theorem incrementQuantity_sends_next (P : Platform) (w : World) (key : string)
    (item : JsVal) :
  CartManager.getCartStore w = true ->
  CartStore.getItem (cart w) key = Normal item ->
  truthy item = true ->
  (forall q,
      prop_of item "quantity" = VNum q ->
      exists k,
        CartManager.incrementQuantity P key w
        = AwaitFetch
            (log_request (change_request key (VNum (q + 1)%float))
               (set_cart (CartStore.setLoading true) w))
            (change_request key (VNum (q + 1)%float)) k)
  /\ (forall s,
        prop_of item "quantity" = VStr s ->
        exists k,
          CartManager.incrementQuantity P key w
          = AwaitFetch
              (log_request (change_request key (VStr (s ++ NumberToString P 1)))
                 (set_cart (CartStore.setLoading true) w))
              (change_request key (VStr (s ++ NumberToString P 1))) k)
  /\ (forall r rest,
        exists w',
          run_alone (CartManager.incrementQuantity P key w) (r :: rest)
          = Done w' (Normal tt)).
Proof.
  intros Hstore Hitem Ht.
  assert (Hn : is_nullish item = false) by (destruct item; easy).
  unfold CartManager.incrementQuantity, bind, gets, CartManager.store_getItem.
  cbn [obind]. rewrite Hstore, Hitem. cbn [obind]. rewrite Ht.
  unfold lift. rewrite (get_prop_defined _ _ Hn). cbn [obind].
  split; [|split].
  - intros q Hq. rewrite Hq. unfold_tasks. cbn [obind ocatch ofinally].
    rewrite Hstore. cbn [obind ocatch ofinally CartManager.detach]. eauto.
  - intros s Hs. rewrite Hs. unfold_tasks. cbn [obind ocatch ofinally].
    rewrite Hstore. cbn [obind ocatch ofinally CartManager.detach]. eauto.
  - intros r rest. unfold_tasks. cbn [obind ocatch ofinally].
    rewrite Hstore. cbn [obind ocatch ofinally CartManager.detach run_alone].
    detached_cases.
    all: eauto.
Qed.

Lemma incrementQuantity_sends_next_witness :
  exists k,
    CartManager.incrementQuantity bare_platform "abc" one_left
    = AwaitFetch
        (log_request (change_request "abc" (VNum 2))
           (set_cart (CartStore.setLoading true) one_left))
        (change_request "abc" (VNum 2)) k.
Proof.
  apply (proj1 (incrementQuantity_sends_next bare_platform one_left "abc"
                  (VObj [("key", VStr "abc"); ("quantity", VNum 1)])
                  eq_refl eq_refl eq_refl) 1%float eq_refl).
Defined.

(** ** Line item properties of a form *)























(** ** What the page does over any sequence of events *)

Section Guarantee.

Variable R : World -> World -> Prop.
Hypothesis R_refl : forall w, R w w.
Hypothesis R_trans : forall w1 w2 w3, R w1 w2 -> R w2 w3 -> R w1 w3.

Lemma stays_rebase {A} (w0 w : World) (out : Outcome A) :
  R w0 w -> stays R w out -> stays R w0 out.
Proof using All.
  intros H0 H. destruct H; constructor; eauto.
Qed.

Lemma stays_obind {A B} (w0 : World) (out : Outcome A) (f : A -> Task B) :
  stays R w0 out -> (forall a, steady R (f a)) -> stays R w0 (obind out f).
Proof using All.
  intros H Hf. induction H as [w0 w c Hw | w0 w req k Hw _ IH | w0 w k Hw _ IH].
  - destruct c as [a|e]; cbn [obind].
    + apply (stays_rebase w0 w); [exact Hw | apply Hf].
    + now constructor.
  - cbn [obind]. constructor; [exact Hw | intros r w1; apply IH].
  - cbn [obind]. constructor; [exact Hw | intros w1; apply IH].
Qed.

Lemma stays_ocatch {A} (w0 : World) (out : Outcome A) (h : JsError -> Task A) :
  stays R w0 out -> (forall e, steady R (h e)) -> stays R w0 (ocatch out h).
Proof using All.
  intros H Hh. induction H as [w0 w c Hw | w0 w req k Hw _ IH | w0 w k Hw _ IH].
  - destruct c as [a|e]; cbn [ocatch].
    + now constructor.
    + apply (stays_rebase w0 w); [exact Hw | apply Hh].
  - cbn [ocatch]. constructor; [exact Hw | intros r w1; apply IH].
  - cbn [ocatch]. constructor; [exact Hw | intros w1; apply IH].
Qed.

Lemma stays_ofinally {A} (w0 : World) (out : Outcome A) (fin : Task unit) :
  stays R w0 out -> steady R fin -> stays R w0 (ofinally out fin).
Proof using All.
  intros H Hfin. induction H as [w0 w c Hw | w0 w req k Hw _ IH | w0 w k Hw _ IH].
  - cbn [ofinally]. apply (stays_rebase w0 w); [exact Hw|].
    apply stays_obind; [apply Hfin|]. intros [] w1. now constructor.
  - cbn [ofinally]. constructor; [exact Hw | intros r w1; apply IH].
  - cbn [ofinally]. constructor; [exact Hw | intros w1; apply IH].
Qed.

Lemma stays_detach {A} (w0 : World) (out : Outcome A) :
  stays R w0 out -> stays R w0 (CartManager.detach out).
Proof using All.
  intros H. induction H as [w0 w c Hw | w0 w req k Hw _ IH | w0 w k Hw _ IH];
    cbn [CartManager.detach]; constructor; auto.
Qed.

Lemma steady_ret {A} (a : A) : steady R (ret a).
Proof using All. intros w. now constructor. Qed.

Lemma steady_throw {A} (e : JsError) : steady R (@throw A e).
Proof using All. intros w. now constructor. Qed.

Lemma steady_lift {A} (c : Completion A) : steady R (lift c).
Proof using All. intros w. now constructor. Qed.

Lemma steady_gets {A} (f : World -> A) : steady R (gets f).
Proof using All. intros w. now constructor. Qed.

Lemma steady_bind {A B} (m : Task A) (f : A -> Task B) :
  steady R m -> (forall a, steady R (f a)) -> steady R (bind m f).
Proof using All. intros Hm Hf w. apply stays_obind; [apply Hm | exact Hf]. Qed.

Lemma steady_try_catch {A} (m : Task A) (h : JsError -> Task A) :
  steady R m -> (forall e, steady R (h e)) -> steady R (try_catch m h).
Proof using All. intros Hm Hh w. apply stays_ocatch; [apply Hm | exact Hh]. Qed.

Lemma steady_try_finally {A} (m : Task A) (fin : Task unit) :
  steady R m -> steady R fin -> steady R (try_finally m fin).
Proof using All. intros Hm Hfin w. apply stays_ofinally; [apply Hm | exact Hfin]. Qed.

Lemma steady_when (b : bool) (m : Task unit) : steady R m -> steady R (when b m).
Proof using All. intros Hm. destruct b; [exact Hm | apply steady_ret]. Qed.

Lemma steady_detached {A} (m : Task A) :
  steady R m -> steady R (fun w => CartManager.detach (m w)).
Proof using All. intros Hm w. apply stays_detach, Hm. Qed.

Lemma steady_Response_json (r : Response) : steady R (Response_json r).
Proof using All. intros w. constructor; [apply R_refl|]. intros w1. now constructor. Qed.

Lemma steady_Response_text (r : Response) : steady R (Response_text r).
Proof using All. intros w. constructor; [apply R_refl|]. intros w1. now constructor. Qed.

Lemma steady_store_getItem (key : string) : steady R (CartManager.store_getItem key).
Proof using All. intros w. now constructor. Qed.

Lemma settle_steady (o : option Element) (out : Outcome unit)
    (others : list PendingTask) (w0 : World) :
  stays R w0 out ->
  Forall (task_steady R) others ->
  R w0 (world (settle o out others))
  /\ Forall (task_steady R) (pending (settle o out others)).
Proof using All.
  intros Hout Hothers. destruct Hout as [w0 w c Hw | w0 w req k Hw Hk | w0 w k Hw Hk];
    cbn [settle world pending]; (split; [exact Hw|]); [exact Hothers| |].
  - apply Forall_app. split; [exact Hothers|]. repeat constructor. exact Hk.
  - apply Forall_app. split; [exact Hothers|]. repeat constructor. exact Hk.
Qed.

End Guarantee.

Lemma advances_refl (P : Platform) (w : World) : advances P w w.
Proof.
  split; [|auto]. exists []. split; [now rewrite app_nil_r | constructor].
Qed.

Lemma advances_trans (P : Platform) (w1 w2 w3 : World) :
  advances P w1 w2 -> advances P w2 w3 -> advances P w1 w3.
Proof.
  intros [(s12 & H12 & F12) T12] [(s23 & H23 & F23) T23]. split; [|auto].
  exists (s12 ++ s23)%list. split.
  - rewrite H23, H12. now rewrite app_assoc.
  - apply Forall_app. auto.
Qed.

Lemma advances_same (P : Platform) (w w' : World) :
  requests w' = requests w ->
  (total_in_step P (cart w) -> total_in_step P (cart w')) ->
  advances P w w'.
Proof.
  intros Hreq Htotal. split; [|exact Htotal].
  exists []. split; [now rewrite app_nil_r | constructor].
Qed.

Lemma steady_setLoading (P : Platform) (b : bool) :
  steady (advances P) (modify (set_cart (CartStore.setLoading b))).
Proof. intros w. constructor. now apply advances_same. Qed.

Lemma steady_setError (P : Platform) (message : option string) :
  steady (advances P) (modify (set_cart (CartStore.setError message))).
Proof. intros w. constructor. now apply advances_same. Qed.

Lemma steady_on_store_loading (P : Platform) (cartStore b : bool) :
  steady (advances P) (CartManager.on_store cartStore (CartStore.setLoading b)).
Proof.
  apply (steady_when _ (advances_refl P) (advances_trans P)), steady_setLoading.
Qed.

Lemma steady_on_store_error (P : Platform) (cartStore : bool)
    (message : option string) :
  steady (advances P) (CartManager.on_store cartStore (CartStore.setError message)).
Proof.
  apply (steady_when _ (advances_refl P) (advances_trans P)), steady_setError.
Qed.

Lemma steady_set_processing (P : Platform) (el : Element) (v : string) :
  steady (advances P) (modify (set_processing el v)).
Proof. intros w. constructor. now apply advances_same. Qed.

Lemma steady_schedule_drawer (P : Platform) :
  steady (advances P) (modify schedule_drawer).
Proof. intros w. constructor. now apply advances_same. Qed.

Lemma steady_store_updateCart (P : Platform) (cartData : JsVal) :
  steady (advances P) (CartManager.store_updateCart P cartData).
Proof.
  intros w. unfold CartManager.store_updateCart.
  destruct (is_nullish cartData) eqn:Hd.
  - destruct (updateCart_nullish P (cart w) cartData Hd) as [e ->].
    constructor. apply advances_refl.
  - rewrite (updateCart_defined P (cart w) cartData Hd).
    constructor. apply advances_same; [reflexivity|]. intros _. reflexivity.
Qed.

Lemma steady_assign_directly (P : Platform) (cartData : JsVal) (b : bool) :
  steady (advances P) (CartManager.assign_directly P cartData b).
Proof.
  intros w. unfold CartManager.assign_directly, bind, lift, modify, when, ret.
  destruct (is_nullish cartData) eqn:Hd.
  - destruct (get_prop_nullish cartData "items" Hd) as [e ->].
    cbn [obind]. constructor. apply advances_refl.
  - rewrite !(get_prop_defined _ _ Hd). cbn [obind].
    destruct b; cbn [obind]; constructor;
      (apply advances_same; [reflexivity|]); intros _; reflexivity.
Qed.

Lemma steady_fetch (P : Platform) (req : Request) :
  cart_endpoint req -> steady (advances P) (fetch req).
Proof.
  intros Hreq w. constructor.
  - split; [|auto]. exists [req]. split; [reflexivity|]. constructor; [exact Hreq | constructor].
  - intros [code payload|e] w1; constructor; apply advances_refl.
Qed.

Lemma cart_endpoint_snapshot :
  cart_endpoint (mkRequest "GET" (CartAPI.baseURL ++ ".js") CartAPI.json_headers None).
Proof. now left. Qed.

Lemma cart_endpoint_add (payload : JsVal) :
  cart_endpoint (CartAPI.POST "/add.js" payload).
Proof. right. left. now exists payload. Qed.

Lemma cart_endpoint_change (key : string) (quantity : JsVal) :
  cart_endpoint (CartAPI.POST "/change.js"
                   (VObj [("id", VStr key); ("quantity", quantity)])).
Proof. right. right. now exists key, quantity. Qed.

Create HintDb steady.

#[local] Hint Resolve steady_on_store_loading steady_on_store_error
  steady_set_processing steady_schedule_drawer steady_store_updateCart
  steady_assign_directly steady_fetch cart_endpoint_snapshot cart_endpoint_add
  cart_endpoint_change : steady.

(** Goes through a function built from the blocks above. *)
Ltac steady_with P lem := apply (lem (advances P) (advances_refl P) (advances_trans P)).

Ltac steady_tac P :=
  repeat first
    [ progress auto with steady
    | progress intros
    | steady_with P (@steady_ret)
    | steady_with P (@steady_throw)
    | steady_with P (@steady_lift)
    | steady_with P (@steady_gets)
    | steady_with P (@steady_Response_json)
    | steady_with P (@steady_Response_text)
    | steady_with P (@steady_store_getItem)
    | steady_with P (@steady_bind)
    | steady_with P (@steady_try_catch)
    | steady_with P (@steady_try_finally)
    | steady_with P (@steady_detached)
    | steady_with P (@steady_when)
    | match goal with
      | |- steady _ (if ?b then _ else _) => destruct b
      | |- steady _ (match ?x with _ => _ end) => destruct x
      end ].

Lemma steady_getCart (P : Platform) : steady (advances P) (CartAPI.getCart P).
Proof. unfold CartAPI.getCart, CartAPI.log_and_rethrow. steady_tac P. Qed.

#[local] Hint Resolve steady_getCart : steady.

Lemma steady_addItem (P : Platform) (item : JsVal) :
  steady (advances P) (CartAPI.addItem P item).
Proof. unfold CartAPI.addItem, CartAPI.log_and_rethrow. steady_tac P. Qed.

Lemma steady_addItems (P : Platform) (items : JsVal) :
  steady (advances P) (CartAPI.addItems P items).
Proof. unfold CartAPI.addItems, CartAPI.log_and_rethrow. steady_tac P. Qed.

Lemma steady_updateItem (P : Platform) (key : string) (q : JsVal) :
  steady (advances P) (CartAPI.updateItem P key q).
Proof. unfold CartAPI.updateItem, CartAPI.log_and_rethrow. steady_tac P. Qed.

Lemma steady_removeItem_api (P : Platform) (key : string) :
  steady (advances P) (CartAPI.removeItem P key).
Proof. unfold CartAPI.removeItem, CartAPI.log_and_rethrow. steady_tac P. Qed.

#[local] Hint Resolve steady_addItem steady_addItems steady_updateItem
  steady_removeItem_api : steady.

Lemma steady_addToCart (P : Platform) (itemOrItems : JsVal) (openCart : bool) :
  steady (advances P) (CartManager.addToCart P itemOrItems openCart).
Proof. unfold CartManager.addToCart. steady_tac P. Qed.

Lemma steady_updateQuantity (P : Platform) (key : string) (q : JsVal) :
  steady (advances P) (CartManager.updateQuantity P key q).
Proof. unfold CartManager.updateQuantity. steady_tac P. Qed.

Lemma steady_removeItem (P : Platform) (key : string) :
  steady (advances P) (CartManager.removeItem P key).
Proof. unfold CartManager.removeItem. steady_tac P. Qed.

Lemma steady_loadInitialCart (P : Platform) :
  steady (advances P) (CartManager.loadInitialCart P).
Proof. unfold CartManager.loadInitialCart. steady_tac P. Qed.

#[local] Hint Resolve steady_addToCart steady_updateQuantity steady_removeItem
  steady_loadInitialCart : steady.

Lemma steady_handleFormSubmit (P : Platform) (form : FormElement) :
  steady (advances P) (CartManager.handleFormSubmit P form).
Proof. unfold CartManager.handleFormSubmit. steady_tac P. Qed.

Lemma steady_handleQuickAdd (P : Platform) (button : ButtonElement) :
  steady (advances P) (CartManager.handleQuickAdd P button).
Proof. unfold CartManager.handleQuickAdd. steady_tac P. Qed.

Lemma steady_incrementQuantity (P : Platform) (key : string) :
  steady (advances P) (CartManager.incrementQuantity P key).
Proof. unfold CartManager.incrementQuantity. steady_tac P. Qed.

Lemma steady_decrementQuantity (P : Platform) (key : string) :
  steady (advances P) (CartManager.decrementQuantity P key).
Proof. unfold CartManager.decrementQuantity. steady_tac P. Qed.

Lemma steady_methods_removeItem (P : Platform) (key : string) :
  steady (advances P) (CartManager.methods_removeItem P key).
Proof. unfold CartManager.methods_removeItem. steady_tac P. Qed.

Lemma step_advances (P : Platform) (pg : Page) (ev : Event) :
  Forall (task_steady (advances P)) (pending pg) ->
  advances P (world pg) (world (step P pg ev))
  /\ Forall (task_steady (advances P)) (pending (step P pg ev)).
Proof.
  intros Hpending.
  destruct ev as [form|button|key|key|key| |i r|i]; cbn [step].
  - apply (settle_steady _ (advances_refl P) (advances_trans P)); [apply steady_handleFormSubmit | exact Hpending].
  - apply (settle_steady _ (advances_refl P) (advances_trans P)); [apply steady_handleQuickAdd | exact Hpending].
  - apply (settle_steady _ (advances_refl P) (advances_trans P)); [apply steady_incrementQuantity | exact Hpending].
  - apply (settle_steady _ (advances_refl P) (advances_trans P)); [apply steady_decrementQuantity | exact Hpending].
  - apply (settle_steady _ (advances_refl P) (advances_trans P)); [apply steady_methods_removeItem | exact Hpending].
  - apply (settle_steady _ (advances_refl P) (advances_trans P)); [apply steady_loadInitialCart | exact Hpending].
  - destruct (pending pg !! i) as [[o [req k|k]]|] eqn:Hi;
      try (split; [apply advances_refl | exact Hpending]).
    apply (settle_steady _ (advances_refl P) (advances_trans P)); [|now apply Forall_delete].
    apply (Forall_lookup_1 _ _ _ _ Hpending Hi).
  - destruct (pending pg !! i) as [[o [req k|k]]|] eqn:Hi;
      try (split; [apply advances_refl | exact Hpending]).
    apply (settle_steady _ (advances_refl P) (advances_trans P)); [|now apply Forall_delete].
    apply (Forall_lookup_1 _ _ _ _ Hpending Hi).
Qed.

Lemma run_advances (P : Platform) (evs : list Event) :
  forall pg,
    Forall (task_steady (advances P)) (pending pg) ->
    advances P (world pg) (world (run P pg evs)).
Proof.
  unfold run. induction evs as [|ev evs IH]; intros pg Hpending; cbn [fold_left].
  - apply advances_refl.
  - destruct (step_advances P pg ev Hpending) as [Hstep Hnext].
    exact (advances_trans P _ _ _ Hstep (IH _ Hnext)).
Qed.

(** X16. Whatever the user does and whatever the network answers, in any
    order, the page only ever calls the three cart endpoints: every
    request made since it was loaded is the GET of [/cart.js], a POST to
    [/cart/add.js] or a POST of a key and a quantity to
    [/cart/change.js], and no earlier request is forgotten. *)
Theorem page_calls_only_cart_endpoints (P : Platform) (w : World)
    (evs : list Event) :
  exists sent,
    requests (world (run P (mkPage w []) evs)) = (requests w ++ sent)%list
    /\ Forall cart_endpoint sent.
Proof.
  exact (proj1 (run_advances P evs (mkPage w []) (Forall_nil_2 _))).
Qed.

(** X17. The total on display stays in step with the stored total: if
    [formatted_total] is [formatMoney(total_price)] when the page is
    loaded, it is so after every handler and every resumption, whatever
    the events and answers and their order. *)
Theorem displayed_total_stays_in_step (P : Platform) (w : World)
    (evs : list Event) :
  total_in_step P (cart w) ->
  total_in_step P (cart (world (run P (mkPage w []) evs))).
Proof.
  exact (proj2 (run_advances P evs (mkPage w []) (Forall_nil_2 _))).
Qed.

Lemma displayed_total_stays_in_step_witness :
  total_in_step bare_platform
    (cart (world (run bare_platform (mkPage blank_world [])
                    [RemoveClick "abc";
                     FetchSettled 0
                       (Resolved 200 (JsonBody "{..}" snapshot_abc));
                     BodyArrived 0]))).
Proof.
  apply (displayed_total_stays_in_step bare_platform blank_world).
  vm_compute. reflexivity.
Defined.

(** ** How the handlers and the mutations end *)

Lemma ends_ocatch {A} (F : World -> Completion A -> Prop) (out : Outcome A)
    (h : JsError -> Task A) :
  (forall w a, F w (Normal a)) ->
  (forall e w, ends F (h e w)) ->
  ends F (ocatch out h).
Proof.
  intros Hn Hh. induction out as [w [a|e] | w req k IH | w k IH]; cbn [ocatch].
  - constructor. apply Hn.
  - apply Hh.
  - constructor. intros r w1. apply IH.
  - constructor. intros w1. apply IH.
Qed.

Lemma ends_ofinally {A} (G F : World -> Completion A -> Prop) (out : Outcome A)
    (fin : Task unit) :
  ends G out ->
  (forall w c, G w c -> exists w', fin w = Done w' (Normal tt) /\ F w' c) ->
  ends F (ofinally out fin).
Proof.
  intros Hout Hfin. induction Hout as [w c Hg | w req k _ IH | w k _ IH];
    cbn [ofinally].
  - destruct (Hfin w c Hg) as (w' & -> & Hf). cbn [obind]. now constructor.
  - constructor. intros r w1. apply IH.
  - constructor. intros w1. apply IH.
Qed.

Lemma ends_detach {A} (out : Outcome A) :
  ends (fun _ c => c = Normal tt) (CartManager.detach out).
Proof.
  induction out as [w c | w req k IH | w k IH]; cbn [CartManager.detach];
    constructor; auto.
Qed.

Lemma ends_impl {A} (F G : World -> Completion A -> Prop) (out : Outcome A) :
  ends F out -> (forall w c, F w c -> G w c) -> ends G out.
Proof.
  intros Hout Himpl. induction Hout; constructor; auto.
Qed.

(** The [catch] block of the three mutations: the message goes to the
    store and the error goes on. *)
Lemma surfaced_then_rethrown {A} (cartStore : bool) (out : Outcome A) :
  ends (fun w c => forall e, c = Abrupt e -> cartStore = true ->
                             CartStore.error (cart w) = Some (err_message e))
    (ocatch out
       (fun error =>
          CartManager.on_store cartStore
            (CartStore.setError (Some (err_message error))) ;;!
          throw error)).
Proof.
  apply ends_ocatch.
  - intros w a e He. discriminate He.
  - intros e w. unfold bind, CartManager.on_store, when, modify, ret, throw.
    destruct cartStore; cbn [obind]; constructor; intros e' He' Hs;
      [injection He' as <-; reflexivity | discriminate Hs].
Qed.

Lemma mutation_ends {A} (cartStore : bool) (out : Outcome A) :
  ends (fun w c =>
          cartStore = true ->
          CartStore.loading (cart w) = false
          /\ forall e, c = Abrupt e ->
                       CartStore.error (cart w) = Some (err_message e))
    (ofinally
       (ocatch out
          (fun error =>
             CartManager.on_store cartStore
               (CartStore.setError (Some (err_message error))) ;;!
             throw error))
       (CartManager.on_store cartStore (CartStore.setLoading false))).
Proof.
  eapply ends_ofinally; [apply surfaced_then_rethrown|].
  intros w c Hc. unfold CartManager.on_store, when, modify, ret.
  destruct cartStore; eexists; (split; [reflexivity|]); intros Hs;
    [|discriminate Hs].
  split; [reflexivity|]. intros e He. exact (Hc e He eq_refl).
Qed.

(** X18. However a mutation of the manager goes ([addToCart],
    [updateQuantity], [removeItem]), with a store at hand it ends with
    [loading] back to [false]; and when it fails, the store shows the
    message of the very error that the caller gets.  This holds for
    every answer of the network and every state in which the function
    is resumed. *)
Theorem mutations_release_loading (P : Platform) (w : World) :
  CartManager.getCartStore w = true ->
  let released (w' : World) (c : Completion JsVal) :=
    CartStore.loading (cart w') = false
    /\ match c with
       | Normal _ => True
       | Abrupt e => CartStore.error (cart w') = Some (err_message e)
       end in
  (forall itemOrItems openCart,
      ends released (CartManager.addToCart P itemOrItems openCart w))
  /\ (forall key quantity,
         ends released (CartManager.updateQuantity P key quantity w))
  /\ (forall key, ends released (CartManager.removeItem P key w)).
Proof.
  intros Hs released.
  assert (Hends : forall out : Outcome JsVal,
             ends released
               (ofinally
                  (ocatch out
                     (fun error =>
                        CartManager.on_store true
                          (CartStore.setError (Some (err_message error))) ;;!
                        throw error))
                  (CartManager.on_store true (CartStore.setLoading false)))).
  { intros out. eapply ends_impl; [apply mutation_ends|].
    intros w' c Hc. destruct (Hc eq_refl) as [Hl He]. split; [exact Hl|].
    destruct c as [a|e]; [exact I | now apply He]. }
  split; [|split]; intros.
  - unfold CartManager.addToCart.
    unfold bind at 1. unfold gets at 1. cbn [obind]. rewrite Hs.
    unfold bind at 1; unfold CartManager.on_store at 1, when, modify, ret;
      cbn [obind]; unfold bind at 1;
      unfold CartManager.on_store at 1, when, modify, ret; cbn [obind];
      unfold try_finally, try_catch; apply Hends.
  - unfold CartManager.updateQuantity.
    unfold bind at 1. unfold gets at 1. cbn [obind]. rewrite Hs.
    unfold bind at 1; unfold CartManager.on_store at 1, when, modify, ret;
      cbn [obind]; unfold try_finally, try_catch; apply Hends.
  - unfold CartManager.removeItem.
    unfold bind at 1. unfold gets at 1. cbn [obind]. rewrite Hs.
    unfold bind at 1; unfold CartManager.on_store at 1, when, modify, ret;
      cbn [obind]; unfold try_finally, try_catch; apply Hends.
Qed.

Lemma mutations_release_loading_witness :
  ends (fun w' c =>
          CartStore.loading (cart w') = false
          /\ match c with
             | Normal _ => True
             | Abrupt e => CartStore.error (cart w') = Some (err_message e)
             end)
    (CartManager.removeItem bare_platform "abc" blank_world).
Proof.
  apply (proj2 (proj2 (mutations_release_loading bare_platform blank_world
                         eq_refl))).
Defined.

Lemma swallowed (cartStore : bool) (out : Outcome unit) :
  ends (fun _ c => c = Normal tt)
    (ocatch out
       (fun error =>
          CartManager.on_store cartStore
            (CartStore.setError (Some (err_message error))))).
Proof.
  apply ends_ocatch.
  - now intros w [].
  - intros e w. unfold CartManager.on_store, when, modify, ret.
    destruct cartStore; now constructor.
Qed.

Lemma handler_ends (cartStore : bool) (el : Element) (out : Outcome unit) :
  ends (fun w c =>
          c = Normal tt
          /\ processing w !! el = Some "false"
          /\ (cartStore = true -> CartStore.loading (cart w) = false))
    (ofinally
       (ocatch out
          (fun error =>
             CartManager.on_store cartStore
               (CartStore.setError (Some (err_message error)))))
       (CartManager.on_store cartStore (CartStore.setLoading false) ;;!
        modify (set_processing el "false"))).
Proof.
  eapply ends_ofinally; [apply swallowed|].
  intros w c ->. unfold bind, CartManager.on_store, when, modify, ret.
  destruct cartStore; cbn [obind]; eexists; (split; [reflexivity|]);
    (split; [reflexivity|]); (split; [apply lookup_insert_eq|]);
    [reflexivity | discriminate].
Qed.

(** X19. The two handlers and the initial load never reject: whatever
    the form or button holds, whatever the network answers and whatever
    state they are resumed in, they end normally.  A handler started on
    an element that is not flagged leaves the [data-processing] flag of
    that element at "false", so that the element can be used again, and
    with a store at hand leaves [loading] at [false]. *)
Theorem handlers_never_reject (P : Platform) (w : World) :
  let finished (el : Element) (w' : World) (c : Completion unit) :=
    c = Normal tt
    /\ (if CartManager.is_processing el w then True
        else processing w' !! el = Some "false"
             /\ CartManager.is_processing el w' = false
             /\ if CartManager.getCartStore w
                then CartStore.loading (cart w') = false
                else True) in
  (forall form,
      ends (finished (form_el form)) (CartManager.handleFormSubmit P form w))
  /\ (forall button,
         ends (finished (button_el button))
           (CartManager.handleQuickAdd P button w))
  /\ ends (fun _ c => c = Normal tt) (CartManager.loadInitialCart P w).
Proof.
  intros finished. unfold finished. split; [|split].
  - intros form. unfold CartManager.handleFormSubmit.
    unfold bind at 1. unfold gets at 1. cbn [obind].
    destruct (CartManager.is_processing (form_el form) w) eqn:Hbusy.
    + constructor. split; [reflexivity | exact I].
    + unfold bind at 1. unfold modify at 1. cbn [obind].
      unfold bind at 1. unfold gets at 1. cbn [obind].
      change (CartManager.getCartStore (set_processing (form_el form) "true" w))
        with (CartManager.getCartStore w).
      destruct (CartManager.getCartStore w) eqn:Hs;
        unfold bind at 1; unfold CartManager.on_store at 1, when, modify, ret;
        cbn [obind]; unfold try_finally, try_catch;
        (eapply ends_impl; [apply handler_ends|]).
      all: intros w' c (-> & Hflag & Hload); split; [reflexivity|].
      all: unfold CartManager.is_processing; rewrite Hflag.
      all: repeat split; auto.
  - intros button. unfold CartManager.handleQuickAdd.
    unfold bind at 1. unfold gets at 1. cbn [obind].
    destruct (CartManager.is_processing (button_el button) w) eqn:Hbusy.
    + constructor. split; [reflexivity | exact I].
    + unfold bind at 1. unfold modify at 1. cbn [obind].
      unfold bind at 1. unfold gets at 1. cbn [obind].
      change (CartManager.getCartStore
                (set_processing (button_el button) "true" w))
        with (CartManager.getCartStore w).
      destruct (CartManager.getCartStore w) eqn:Hs;
        unfold bind at 1; unfold CartManager.on_store at 1, when, modify, ret;
        cbn [obind]; unfold try_finally, try_catch;
        (eapply ends_impl; [apply handler_ends|]).
      all: intros w' c (-> & Hflag & Hload); split; [reflexivity|].
      all: unfold CartManager.is_processing; rewrite Hflag.
      all: repeat split; auto.
  - unfold CartManager.loadInitialCart, try_catch. apply ends_ocatch.
    + now intros w' [].
    + intros e w'. now constructor.
Qed.

(** ** Two mutations in flight *)

(** The three stages of a removal started from a template: the request,
    the wait for the body, the store update. *)
Lemma removal_stages (P : Platform) (key : string) (w : World) :
  CartManager.getCartStore w = true ->
  exists on_answer,
    CartManager.methods_removeItem P key w
    = AwaitFetch
        (log_request (change_request key (VNum 0))
           (set_cart (CartStore.setLoading true) w))
        (change_request key (VNum 0)) on_answer
    /\ forall code raw answer w1,
        success code ->
        exists on_body,
          on_answer (Resolved code (JsonBody raw answer)) w1 = AwaitBody w1 on_body
          /\ forall w2,
              is_nullish answer = false ->
              CartManager.getCartStore w2 = true ->
              exists w3,
                on_body w2 = Done w3 (Normal tt)
                /\ cart w3 = store_of_snapshot P answer false
                /\ requests w3 = requests w2
                /\ CartManager.getCartStore w3 = true.
Proof.
  intros Hstore.
  unfold CartManager.methods_removeItem, CartManager.removeItem.
  unfold_tasks. detached_cbn. rewrite Hstore. detached_cbn.
  eexists. split; [reflexivity|].
  intros code raw answer w1 Hcode.
  detached_cbn. rewrite (ok_success code (JsonBody raw answer) Hcode).
  detached_cbn. eexists. split; [reflexivity|].
  intros w2 Hdef Hstore2. detached_cbn.
  unfold CartManager.getCartStore in Hstore2.
  destruct (Alpine w2) eqn:HA; try discriminate.
  detached_cbn.
  rewrite ?(get_prop_defined _ _ Hdef), ?(updateCart_defined _ _ _ Hdef).
  detached_cbn.
  rewrite ?(get_prop_defined _ _ Hdef), ?(updateCart_defined _ _ _ Hdef).
  detached_cbn.
  eexists. split; [reflexivity|]. split; [reflexivity|]. split; [reflexivity|].
  unfold CartManager.getCartStore, set_cart. cbn [Alpine]. now rewrite HA.
Qed.

(** X20. Nothing orders the answers of two mutations in flight: the
    store ends up holding the answer that arrived last, whichever
    request was sent last.  After two removals started one after the
    other, if the answers come back in the order of the requests the
    store holds the second answer; if they come back the other way
    round it holds the first, which the server gave before it saw the
    second removal.  In both orders [loading] is [false] as soon as one
    of the two has finished, while the other is still in flight. *)
Theorem last_answer_wins (P : Platform) (w : World) (k1 k2 : string)
    (code1 code2 : Z) (raw1 raw2 : string) (answer1 answer2 : JsVal) :
  CartManager.getCartStore w = true ->
  success code1 -> success code2 ->
  is_nullish answer1 = false -> is_nullish answer2 = false ->
  let both := run P (mkPage w []) [RemoveClick k1; RemoveClick k2] in
  let first := [FetchSettled 0 (Resolved code1 (JsonBody raw1 answer1));
                BodyArrived 1] in
  let second := [FetchSettled 1 (Resolved code2 (JsonBody raw2 answer2));
                 BodyArrived 1] in
  let then_first := [FetchSettled 0 (Resolved code1 (JsonBody raw1 answer1));
                     BodyArrived 0] in
  let then_second := [FetchSettled 0 (Resolved code2 (JsonBody raw2 answer2));
                      BodyArrived 0] in
  requests (world both)
  = (requests w ++ [change_request k1 (VNum 0); change_request k2 (VNum 0)])%list
  /\ length (pending (run P both first)) = 1%nat
  /\ CartStore.loading (cart (world (run P both first))) = false
  /\ pending (run P both (first ++ then_second)) = []
  /\ cart (world (run P both (first ++ then_second)))
     = store_of_snapshot P answer2 false
  /\ length (pending (run P both second)) = 1%nat
  /\ CartStore.loading (cart (world (run P both second))) = false
  /\ pending (run P both (second ++ then_first)) = []
  /\ cart (world (run P both (second ++ then_first)))
     = store_of_snapshot P answer1 false.
Proof.
  intros Hstore H1 H2 Hd1 Hd2 both first second then_first then_second.
  destruct (removal_stages P k1 w Hstore) as (f1 & E1 & S1).
  set (w1 := log_request (change_request k1 (VNum 0))
               (set_cart (CartStore.setLoading true) w)) in *.
  assert (Hstore1 : CartManager.getCartStore w1 = true) by exact Hstore.
  destruct (removal_stages P k2 w1 Hstore1) as (f2 & E2 & S2).
  set (w2 := log_request (change_request k2 (VNum 0))
               (set_cart (CartStore.setLoading true) w1)) in *.
  assert (Hstore2 : CartManager.getCartStore w2 = true) by exact Hstore.
  assert (Hboth : both = mkPage w2 [mkPending None (OnFetch (change_request k1 (VNum 0)) f1);
                                    mkPending None (OnFetch (change_request k2 (VNum 0)) f2)]).
  { unfold both, run. cbn [fold_left step world pending].
    rewrite E1. cbn [settle world pending app]. rewrite E2. reflexivity. }
  rewrite Hboth. clear Hboth both.
  destruct (S1 code1 raw1 answer1 w2 H1) as (b1 & B1 & D1).
  destruct (S2 code2 raw2 answer2 w2 H2) as (b2 & B2 & D2).
  destruct (D1 w2 Hd1 Hstore2) as (w3 & F1 & C1 & R1 & A1).
  destruct (D2 w2 Hd2 Hstore2) as (w4 & F2 & C2 & R2 & A2).
  destruct (S2 code2 raw2 answer2 w3 H2) as (b2' & B2' & D2').
  destruct (S1 code1 raw1 answer1 w4 H1) as (b1' & B1' & D1').
  destruct (D2' w3 Hd2 A1) as (w5 & F5 & C5 & R5 & A5).
  destruct (D1' w4 Hd1 A2) as (w6 & F6 & C6 & R6 & A6).
  unfold first, second, then_first, then_second, run.
  cbn [fold_left step world pending app lookup list_lookup delete list_delete].
  rewrite B1, B2.
  cbn [settle fold_left step world pending app lookup list_lookup delete list_delete].
  rewrite F1, F2.
  cbn [settle fold_left step world pending app lookup list_lookup delete list_delete].
  rewrite B2', B1'.
  cbn [settle fold_left step world pending app lookup list_lookup delete list_delete].
  rewrite F5, F6.
  cbn [settle fold_left step world pending app lookup list_lookup delete list_delete].
  rewrite C1, C2, C5, C6.
  repeat split.
  unfold w2, w1. cbn [requests log_request set_cart]. now rewrite <- app_assoc.
Qed.

Lemma last_answer_wins_witness :
  cart (world (run bare_platform
                 (run bare_platform (mkPage blank_world [])
                    [RemoveClick "abc"; RemoveClick "def"])
                 ([FetchSettled 1 (Resolved 200 (JsonBody "{}" (VObj [])));
                   BodyArrived 1]
                    ++ [FetchSettled 0 (Resolved 200 (JsonBody "{..}" snapshot_abc));
                        BodyArrived 0])%list))
  = store_of_snapshot bare_platform snapshot_abc false.
Proof.
  apply (last_answer_wins bare_platform blank_world "abc" "def" 200 200
           "{..}" "{}" snapshot_abc (VObj []) eq_refl);
    unfold success; try lia; reflexivity.
Defined.

(** ** The submit listener *)

(** X21. The submit listener leaves alone a form that has a mutation in
    flight: on a page that started with no element flagged, after any
    events, a submit on such a form runs no handler, changes nothing on
    the page, and does not call [preventDefault], so the submission is
    left to the browser.  A product form that has none in flight is
    intercepted: the default is prevented and [handleFormSubmit] runs,
    past its own duplicate check. *)
Theorem submit_listener_skips_form_in_flight (P : Platform) (w0 : World)
    (evs : list Event) (t : SubmitTarget) :
  fresh w0 ->
  let pg := run P (mkPage w0 []) evs in
  (form_el (target_form t) ∈ in_flight pg ->
   submit_listener P pg t = (pg, false))
  /\ (form_el (target_form t) ∉ in_flight pg ->
      tagName t = "FORM" ->
      is_product_form t = true ->
      submit_listener P pg t = (step P pg (Submit (target_form t)), true)
      /\ CartManager.is_processing (form_el (target_form t)) (world pg) = false).
Proof.
  intros Hfresh pg.
  pose proof (run_ok P evs _ (fresh_ok w0 Hfresh)) as Hok. fold pg in Hok.
  split.
  - intros Hin. apply (ok_flags pg Hok) in Hin.
    unfold submit_listener. rewrite Hin. now rewrite andb_false_r.
  - intros Hout Htag Hproduct.
    assert (Hidle : CartManager.is_processing (form_el (target_form t)) (world pg)
                    = false).
    { destruct (CartManager.is_processing (form_el (target_form t)) (world pg))
        eqn:E; [|reflexivity].
      apply (ok_flags pg Hok) in E. contradiction. }
    split; [|exact Hidle].
    unfold submit_listener. rewrite Htag, Hidle, Hproduct. reflexivity.
Qed.

Lemma submit_listener_skips_form_in_flight_witness :
  submit_listener bare_platform
    (run bare_platform (mkPage blank_world []) [Submit form_7]) form_7_target
  = (run bare_platform (mkPage blank_world []) [Submit form_7], false).
Proof.
  assert (Hfresh : fresh blank_world) by (intros el; reflexivity).
  apply (proj1 (submit_listener_skips_form_in_flight bare_platform blank_world
                  [Submit form_7] form_7_target Hfresh)).
  cbn. left.
Defined.

(** ** A submission that succeeds *)




(** X28. From the button to the store: an idle quick-add button whose
    variant id (its own [data-variant-id], else the id input of the
    closest form) is not empty, clicked when the server accepts the add
    and answers the GET, sends [{id, quantity}] (the [data-quantity]
    parsed in base 10, "1" when it is missing or empty, and no
    properties) to /cart/add.js, then gets /cart.js; the store ends up
    holding that snapshot with [loading] off and no error, one opening
    of the drawer is scheduled, and the button's flag is back to
    "false". *)
Theorem quick_add_reaches_the_store (P : Platform) (button : ButtonElement)
    (w : World) (post_code get_code : Z) (post_raw get_raw : string)
    (added snapshot : JsVal) :
  let variantId :=
    js_or (or_undefined (data_variantId button))
          (or_undefined (closest_form_id button)) in
  let quantity :=
    parseInt10 P
      (ToString P (js_or (or_undefined (data_quantity button)) (VStr "1"))) in
  let item := VObj [("id", variantId); ("quantity", VNum quantity)] in
  CartManager.is_processing (button_el button) w = false ->
  truthy variantId = true ->
  success post_code ->
  success get_code ->
  CartManager.getCartStore w = true ->
  is_nullish snapshot = false ->
  exists w',
    run_alone (CartManager.handleQuickAdd P button w)
      [Resolved post_code (JsonBody post_raw added);
       Resolved get_code (JsonBody get_raw snapshot)]
    = Done w' (Normal tt)
    /\ requests w' = (requests w ++ [add_request item; snapshot_request])%list
    /\ cart w' = store_of_snapshot P snapshot false
    /\ drawer_timers w' = S (drawer_timers w)
    /\ processing w' = <[button_el button := "false"]> (processing w).
Proof.
  intros variantId quantity item Hidle Hid Hpost Hget Hstore Hdef.
  pose proof (ok_success post_code (JsonBody post_raw added) Hpost) as Hok1.
  pose proof (ok_success get_code (JsonBody get_raw snapshot) Hget) as Hok2.
  unfold CartManager.handleQuickAdd.
  unfold bind at 1. unfold gets at 1. cbn [obind]. rewrite Hidle.
  fold variantId. fold quantity. rewrite Hid. cbn [negb]. fold item.
  assert (Harr : Array_isArray item = false) by reflexivity.
  unfold CartManager.addToCart. rewrite Harr.
  clearbody item. clear Hid variantId quantity.
  unfold_tasks.
  unfold CartManager.getCartStore in Hstore.
  destruct (Alpine w) eqn:HA; try discriminate.
  do 8 (cbn [negb obind ocatch ofinally run_alone rbody bodyUsed Alpine cart
             set_processing set_cart log_request schedule_drawer
             CartManager.Alpine_defined CartManager.Alpine_store_cart andb];
        unfold CartManager.getCartStore;
        rewrite ?HA, ?Hok1, ?Hok2, ?(get_prop_defined _ _ Hdef),
          ?(updateCart_defined _ _ _ Hdef)).
  eexists. split; [reflexivity|].
  cbn [requests cart drawer_timers processing set_cart log_request
       schedule_drawer set_processing].
  split; [now rewrite <- app_assoc|]. split; [reflexivity|].
  split; [reflexivity|]. now rewrite insert_insert_eq.
Qed.

Lemma quick_add_reaches_the_store_witness :
  exists w',
    run_alone
      (CartManager.handleQuickAdd bare_platform
         (mkButton 9 None (Some "2") (Some "V1")) blank_world)
      [Resolved 200 (JsonBody "{}" (VObj []));
       Resolved 200 (JsonBody "{..}" snapshot_abc)]
    = Done w' (Normal tt)
    /\ cart w' = store_of_snapshot bare_platform snapshot_abc false
    /\ drawer_timers w' = 1%nat.
Proof.
  destruct (quick_add_reaches_the_store bare_platform
              (mkButton 9 None (Some "2") (Some "V1")) blank_world
              200 200 "{}" "{..}" (VObj []) snapshot_abc
              eq_refl eq_refl
              ltac:(unfold success; lia) ltac:(unfold success; lia)
              eq_refl eq_refl)
    as (w' & Hrun & _ & Hcart & Htimers & _).
  exists w'. repeat split; assumption.
Defined.

(** ** The errors of the gateway *)



(** X24. What the other operations throw when the server refuses:
    [addItems], [updateItem] and [removeItem] throw the [description] of
    a JSON body, else their own fixed message; on a body that is not
    JSON they throw the parser's [SyntaxError], and on the body [null]
    the [TypeError] of reading its [description].  [getCart] throws
    "Failed to fetch cart" without reading the body. *)
Theorem change_refused (P : Platform) (w : World) (code : Z) (payload : Body)
    (rest : list FetchResult) :
  ~ success code ->
  (forall items,
      run_alone (CartAPI.addItems P items w) (Resolved code payload :: rest)
      = Done (log_request (add_request (VObj [("items", items)])) w)
          (Abrupt (change_error P "Failed to add items to cart" payload)))
  /\ (forall key quantity,
         run_alone (CartAPI.updateItem P key quantity w)
           (Resolved code payload :: rest)
         = Done (log_request (change_request key quantity) w)
             (Abrupt (change_error P "Failed to update item" payload)))
  /\ (forall key,
         run_alone (CartAPI.removeItem P key w) (Resolved code payload :: rest)
         = Done (log_request (change_request key (VNum 0)) w)
             (Abrupt (change_error P "Failed to remove item" payload)))
  /\ run_alone (CartAPI.getCart P w) (Resolved code payload :: rest)
     = Done (log_request snapshot_request w)
         (Abrupt (mkError "Error" "Failed to fetch cart")).
Proof.
  intros Hcode.
  pose proof (not_ok_failure code payload Hcode) as Hok.
  repeat split; intros; unfold_tasks; cbn [obind ocatch run_alone];
    rewrite Hok; cbn [negb obind ocatch run_alone rbody bodyUsed];
    try reflexivity.
  all: destruct payload as [raw error|raw parse_error];
    cbn [negb obind ocatch run_alone rbody bodyUsed change_error];
    [|reflexivity].
  all: destruct (get_prop error "description"); reflexivity.
Qed.

Lemma change_refused_witness :
  run_alone (CartAPI.removeItem bare_platform "abc" blank_world) [bare_error_reply]
  = Done (log_request (change_request "abc" (VNum 0)) blank_world)
      (Abrupt (mkError "Error" "Failed to remove item")).
Proof.
  apply (proj1 (proj2 (proj2 (change_refused bare_platform blank_world 422
                                (JsonBody "{}" (VObj [])) []
                                ltac:(unfold success; lia))))).
Defined.

(** ** The drawer *)

Lemma showDialogManually_shows (this : SideCart.t) :
  SideCart.in_document this = true ->
  SideCart.element (SideCart.showDialogManually this)
  = mkContainer (Some "false") (Some "block")
  /\ SideCart.dialog (SideCart.showDialogManually this) = SideCart.dialog this
  /\ SideCart.in_document (SideCart.showDialogManually this) = true
  /\ SideCart.timers (SideCart.showDialogManually this) = SideCart.timers this.
Proof.
  intros Hdoc. unfold SideCart.showDialogManually. rewrite Hdoc.
  repeat split. exact Hdoc.
Qed.

Lemma showDialog_shows (L : DialogLibrary) (this : SideCart.t) :
  SideCart.in_document this = true ->
  aria_hidden (SideCart.element (SideCart.showDialog L this)) = Some "false"
  /\ SideCart.dialog (SideCart.showDialog L this) = SideCart.dialog this
  /\ SideCart.timers (SideCart.showDialog L this) = SideCart.timers this.
Proof.
  intros Hdoc. unfold SideCart.showDialog.
  destruct (SideCart.dialog this && show_is_function L).
  - destruct (library_show L (SideCart.element this)) as [c [error|]].
    + unfold SideCart.showDialogManually, SideCart.set_element.
      cbn [SideCart.in_document]. rewrite Hdoc. repeat split.
    + cbn [SideCart.set_element SideCart.in_document SideCart.element].
      rewrite Hdoc.
      destruct (bool_decide_reflect (aria_hidden c = Some "false")) as [Hc|Hc];
        cbn [negb].
      * repeat split. exact Hc.
      * unfold SideCart.showDialogManually, SideCart.set_element.
        cbn [SideCart.in_document]. rewrite Hdoc. repeat split.
  - destruct (showDialogManually_shows this Hdoc) as (-> & Hd & _ & Ht).
    repeat split; assumption.
Qed.

(** X25. Whatever the dialog library does when asked to show the drawer
    (sets the attribute, removes it, leaves it, throws, or has no [show]
    at all), [showDialog] leaves a drawer that is in the document with
    [aria-hidden="false"]; since that attribute is then present,
    [isOpen()] answers false for the drawer it has just shown. *)
Theorem shown_drawer_is_not_reported_open (L : DialogLibrary) (this : SideCart.t) :
  SideCart.in_document this = true ->
  aria_hidden (SideCart.element (SideCart.showDialog L this)) = Some "false"
  /\ SideCart.isOpen (SideCart.showDialog L this) = false
  /\ SideCart.isOpen (SideCart.showDialogManually this) = false.
Proof.
  intros Hdoc. destruct (showDialog_shows L this Hdoc) as (Hshown & _ & _).
  split; [exact Hshown|]. split.
  - unfold SideCart.isOpen. rewrite Hshown. apply andb_false_r.
  - unfold SideCart.isOpen.
    destruct (showDialogManually_shows this Hdoc) as (-> & _).
    apply andb_false_r.
Qed.

Lemma shown_drawer_is_not_reported_open_witness :
  SideCart.isOpen
    (SideCart.showDialog
       (mkLibrary (fun c => (c, None)) true
          (fun c => (mkContainer None (style_display c), None))
          (fun c => (mkContainer (Some "true") (style_display c), None)))
       (SideCart.mk true (mkContainer (Some "true") None) true []))
  = false.
Proof.
  apply (shown_drawer_is_not_reported_open
           (mkLibrary (fun c => (c, None)) true
              (fun c => (mkContainer None (style_display c), None))
              (fun c => (mkContainer (Some "true") (style_display c), None)))
           (SideCart.mk true (mkContainer (Some "true") None) true [])).
  reflexivity.
Defined.



(** ** Registration of the store *)

Lemma loadInitialCart_run (P : Platform) (w : World) (r : FetchResult)
    (rest : list FetchResult) :
  exists w',
    run_alone (CartManager.loadInitialCart P w) (r :: rest) = Done w' (Normal tt)
    /\ requests w' = (requests w ++ [snapshot_request])%list.
Proof.
  unfold CartManager.loadInitialCart. unfold_tasks. run_cases.
  all: eexists; split; [reflexivity|]; reflexivity.
Qed.

(** X27. The two fallbacks of [registerStore] are not exclusive.  With
    the store there at construction the cart is loaded once and nothing
    is left waiting.  Otherwise nothing is requested then; the listener
    for [alpine:init] loads the cart without looking for the store, and
    the timer loads it again if the store is there by then: two GETs of
    /cart.js in all, both ending normally whatever the answers. *)
Theorem registerStore_may_load_twice (P : Platform) (w : World) :
  (store_available w = true ->
   registerStore P w = (CartManager.loadInitialCart P w, false))
  /\ (store_available w = false ->
      registerStore P w = (Done w (Normal tt), true)
      /\ forall w1 r1 rest1,
          exists w2,
            run_alone (on_alpine_init P w1) (r1 :: rest1) = Done w2 (Normal tt)
            /\ requests w2 = (requests w1 ++ [snapshot_request])%list
            /\ forall w3 r2 rest2,
                requests w3 = requests w2 ->
                exists w4,
                  run_alone (after_delay P w3) (r2 :: rest2) = Done w4 (Normal tt)
                  /\ requests w4
                     = if store_available w3
                       then (requests w1 ++ [snapshot_request; snapshot_request])%list
                       else (requests w1 ++ [snapshot_request])%list).
Proof.
  unfold registerStore. split; intros Hw; rewrite Hw; [reflexivity|].
  split; [reflexivity|]. intros w1 r1 rest1.
  destruct (loadInitialCart_run P w1 r1 rest1) as (w2 & Hrun & Hreq).
  exists w2. split; [exact Hrun|]. split; [exact Hreq|].
  intros w3 r2 rest2 Hsame. unfold after_delay.
  destruct (store_available w3).
  - destruct (loadInitialCart_run P w3 r2 rest2) as (w4 & Hrun4 & Hreq4).
    exists w4. split; [exact Hrun4|].
    rewrite Hreq4, Hsame, Hreq. now rewrite <- app_assoc.
  - exists w3. split; [reflexivity|]. now rewrite Hsame.
Qed.

Lemma registerStore_may_load_twice_witness :
  registerStore bare_platform blank_world
  = (CartManager.loadInitialCart bare_platform blank_world, false).
Proof.
  apply (proj1 (registerStore_may_load_twice bare_platform blank_world)).
  reflexivity.
Defined.
